(** * UK number plate generator: a shallow embedding and its properties

  The development follows [uk_number_plate_generator.py].  The class
  [UKNumberPlateGenerator] is embedded as state-passing code over an
  explicit program state (the instance's attributes, the file system and
  the standard output); exceptions are values of an error type.

  Python text is modelled by Rocq strings read as sequences of ASCII
  characters, which is what every literal and every test datum of the
  program is. *)

From Stdlib Require Import ZArith Ascii.
From stdpp Require Import base option list strings gmap.

Local Open Scope Z_scope.
Local Open Scope nat_scope.

(** ** Python built-ins used by the program *)

Module Py.

(** The exceptions the program can raise or let through. *)
Inductive exn : Type :=
| ValueError (msg : string)
| OSError (msg : string)
| AttributeError (msg : string)
| IndexError (msg : string).

(** [len(s)] *)
Definition len (s : string) : nat := String.length s.

Definition chars (s : string) : list ascii := String.list_ascii_of_string s.

(** [''.join(cs)] for a sequence of one-character strings. *)
Definition join (cs : list ascii) : string := String.string_of_list_ascii cs.

Definition is_lower (c : ascii) : bool :=
  (97 <=? N_of_ascii c)%N && (N_of_ascii c <=? 122)%N.

Definition upper_char (c : ascii) : ascii :=
  if is_lower c then ascii_of_N (N_of_ascii c - 32) else c.

(** [s.upper()] *)
Fixpoint upper (s : string) : string :=
  match s with
  | EmptyString => EmptyString
  | String c s' => String (upper_char c) (upper s')
  end.

(** [s.startswith(p)] *)
Fixpoint startswith (p s : string) : bool :=
  match p, s with
  | EmptyString, _ => true
  | String _ _, EmptyString => false
  | String a p', String b s' => bool_decide (a = b) && startswith p' s'
  end.

(** [sub in s] on strings: [sub] occurs in [s] as a substring. *)
Fixpoint contains (sub s : string) : bool :=
  startswith sub s ||
  match s with
  | EmptyString => false
  | String _ s' => contains sub s'
  end.

(** [any(xs)] *)
Definition any (xs : list bool) : bool := existsb id xs.

Fixpoint drop_chars (n : nat) (s : string) : string :=
  match n, s with
  | O, _ => s
  | S _, EmptyString => EmptyString
  | S n', String _ s' => drop_chars n' s'
  end.

(** [s[start:]]: a negative [start] counts from the end, and an index
    outside the string is clipped to it. *)
Definition slice_from (start : Z) (s : string) : string :=
  let n := Z.of_nat (len s) in
  let i := if (start <? 0)%Z then Z.max (n + start) 0 else Z.min start n in
  drop_chars (Z.to_nat i) s.

Definition digit (d : Z) : ascii := ascii_of_N (48 + Z.to_N d).

(** Decimal digits of a non-negative integer, most significant first,
    in front of [acc]. *)
Fixpoint str_digits (fuel : nat) (n : Z) (acc : string) : string :=
  match fuel with
  | O => acc
  | S fuel' =>
      let acc' := String (digit (n mod 10)) acc in
      if (n <? 10)%Z then acc' else str_digits fuel' (n / 10) acc'
  end.

(** [str(n)] for an integer. *)
Definition str (n : Z) : string :=
  if (n <? 0)%Z
  then String "-" (str_digits (S (Z.to_nat (Z.log2 (- n)))) (- n) EmptyString)
  else str_digits (S (Z.to_nat (Z.log2 n))) n EmptyString.

Definition hex_digit (d : N) : ascii :=
  if (d <? 10)%N then ascii_of_N (48 + d) else ascii_of_N (87 + d).

Definition backslash : ascii := ascii_of_N 92.
Definition double_quote : ascii := ascii_of_N 34.
Definition single_quote : ascii := ascii_of_N 39.

Definition escape (s : string) : string := String backslash s.

(** One character of [repr(s)], inside the quote character [q]. *)
Definition repr_char (q : ascii) (c : ascii) : string :=
  let n := N_of_ascii c in
  if bool_decide (c = q) || bool_decide (c = backslash)
  then escape (String c EmptyString)
  else if (n =? 9)%N then escape "t"
  else if (n =? 10)%N then escape "n"
  else if (n =? 13)%N then escape "r"
  else if (n <? 32)%N || (n =? 127)%N
  then escape (String "x" (String (hex_digit (n / 16))
                            (String (hex_digit (n mod 16)) EmptyString)))
  else String c EmptyString.

Fixpoint repr_body (q : ascii) (s : string) : string :=
  match s with
  | EmptyString => EmptyString
  | String c s' => repr_char q c +:+ repr_body q s'
  end.

(** [repr(s)] for a string: single quotes, unless the text has a single
    quote and no double quote. *)
Definition repr (s : string) : string :=
  let q := if contains (String single_quote EmptyString) s
              && negb (contains (String double_quote EmptyString) s)
           then double_quote else single_quote in
  String q (repr_body q s +:+ String q EmptyString).

End Py.

(** A call either returns a value or raises. *)
Inductive result (A : Type) : Type :=
| Ok (a : A)
| Raise (e : Py.exn).
Arguments Ok {A} a.
Arguments Raise {A} e.

(** ** [re.match] for the patterns [_strptime] builds *)

Module Re.

Inductive regex : Type :=
| Lit (c : ascii)                 (* a literal character *)
| Range (lo hi : ascii)           (* [lo-hi] *)
| Digit                           (* \d *)
| Seq (r1 r2 : regex)
| Alt (r1 r2 : regex)             (* r1|r2, r1 tried first *)
| Group (name : string) (r : regex).  (* (?P<name>r) *)

(** A way of matching a prefix of the subject. *)
Record found : Type := Found {
  groupdict : list (string * string);
  matched : string;
  rest : string
}.

Definition in_range (lo hi c : ascii) : bool :=
  (N_of_ascii lo <=? N_of_ascii c)%N && (N_of_ascii c <=? N_of_ascii hi)%N.

Definition one_char (p : ascii → bool) (s : string) : list found :=
  match s with
  | String c s' => if p c then [Found [] (String c EmptyString) s'] else []
  | EmptyString => []
  end.

(** Every way [r] matches a prefix of [s], in the order in which a
    backtracking matcher tries them. *)
Fixpoint run (r : regex) (s : string) : list found :=
  match r with
  | Lit c => one_char (λ x, bool_decide (x = c)) s
  | Range lo hi => one_char (in_range lo hi) s
  | Digit => one_char (in_range "0" "9") s
  | Seq r1 r2 =>
      f1 ← run r1 s;
      f2 ← run r2 (rest f1);
      [Found (groupdict f1 ++ groupdict f2) (matched f1 +:+ matched f2) (rest f2)]
  | Alt r1 r2 => run r1 s ++ run r2 s
  | Group name r' =>
      (λ f, Found ((name, matched f) :: groupdict f) (matched f) (rest f)) <$> run r' s
  end.

(** [re.match(r, s)]: the first way of matching at the start of [s]. *)
Definition match_ (r : regex) (s : string) : option found := head (run r s).

Fixpoint group (name : string) (d : list (string * string)) : option string :=
  match d with
  | [] => None
  | (k, v) :: d' => if bool_decide (k = name) then Some v else group name d'
  end.

End Re.

(** ** [datetime]: dates and [strptime] with the format ["%d/%m/%Y"] *)

Module Datetime.

Record datetime : Type := mk_datetime { year : Z; month : Z; day : Z }.

Definition MINYEAR : Z := 1.
Definition MAXYEAR : Z := 9999.

Definition is_leap (y : Z) : bool :=
  (y mod 4 =? 0)%Z && (negb (y mod 100 =? 0)%Z || (y mod 400 =? 0)%Z).

Definition days_in_month (y m : Z) : Z :=
  if (m =? 2)%Z then (if is_leap y then 29 else 28)%Z
  else if (m =? 4)%Z || (m =? 6)%Z || (m =? 9)%Z || (m =? 11)%Z then 30%Z
  else 31%Z.

(** The constructor's range checks, with the messages of CPython. *)
Definition date (y m d : Z) : result datetime :=
  if (y <? MINYEAR)%Z || (MAXYEAR <? y)%Z
  then Raise (Py.ValueError ("year " +:+ Py.str y +:+ " is out of range"))
  else if (m <? 1)%Z || (12 <? m)%Z
  then Raise (Py.ValueError "month must be in 1..12")
  else if (d <? 1)%Z || (days_in_month y m <? d)%Z
  then Raise (Py.ValueError "day is out of range for month")
  else Ok (mk_datetime y m d).

(** A date the constructor accepts. *)
Definition valid (dt : datetime) : Prop :=
  (MINYEAR ≤ year dt ≤ MAXYEAR)%Z ∧ (1 ≤ month dt ≤ 12)%Z ∧
  (1 ≤ day dt ≤ days_in_month (year dt) (month dt))%Z.

Definition format : string := "%d/%m/%Y".

Import Re.

Definition alts (rs : list regex) (last : regex) : regex := foldr Alt last rs.

(** [%d]: 3[0-1]|[1-2]\d|0[1-9]|[1-9]| [1-9] *)
Definition re_d : regex :=
  Group "d" (alts [Seq (Lit "3") (Range "0" "1");
                   Seq (Range "1" "2") Digit;
                   Seq (Lit "0") (Range "1" "9");
                   Range "1" "9"]
                  (Seq (Lit " ") (Range "1" "9"))).

(** [%m]: 1[0-2]|0[1-9]|[1-9] *)
Definition re_m : regex :=
  Group "m" (alts [Seq (Lit "1") (Range "0" "2");
                   Seq (Lit "0") (Range "1" "9")]
                  (Range "1" "9")).

(** [%Y]: \d\d\d\d *)
Definition re_Y : regex :=
  Group "Y" (Seq Digit (Seq Digit (Seq Digit Digit))).

(** The pattern [_strptime] compiles from ["%d/%m/%Y"]. *)
Definition format_regex : regex :=
  Seq re_d (Seq (Lit "/") (Seq re_m (Seq (Lit "/") re_Y))).

Definition digit_value (c : ascii) : Z := Z.of_N (N_of_ascii c - 48).

(** [int(s)] on the texts the groups above capture: decimal digits,
    after an optional blank. *)
Fixpoint int_acc (acc : Z) (s : string) : Z :=
  match s with
  | EmptyString => acc
  | String c s' =>
      if bool_decide (c = " "%char) then int_acc acc s'
      else int_acc (10 * acc + digit_value c) s'
  end.
Definition int (s : string) : Z := int_acc 0 s.

(** [datetime.strptime(data_string, "%d/%m/%Y")] *)
Definition strptime (data_string : string) : result datetime :=
  match match_ format_regex data_string with
  | None =>
      Raise (Py.ValueError ("time data " +:+ Py.repr data_string +:+
                            " does not match format " +:+ Py.repr format))
  | Some f =>
      if negb (bool_decide (rest f = EmptyString))
      then Raise (Py.ValueError ("unconverted data remains: " +:+ rest f))
      else
        match group "Y" (groupdict f), group "m" (groupdict f), group "d" (groupdict f) with
        | Some Y, Some m, Some d => date (int Y) (int m) (int d)
        | _, _, _ => Raise (Py.ValueError "missing group")
        end
  end.

End Datetime.

(** ** The file system and the standard output

  The program reaches its file only through [csv.reader] and
  [csv.writer]; a regular file is modelled by the sequence of records
  (rows of fields) those two exchange. *)

Module OS.

Inductive node : Type :=
| Directory
| RegularFile (readable writable : bool) (records : list (list string)).

Record world : Type := mk_world {
  files : gmap string node;
  stdout : list string
}.

(** [os.path.isfile(path)] *)
Definition isfile (path : string) (w : world) : bool :=
  match files w !! path with
  | Some (RegularFile _ _ _) => true
  | _ => false
  end.

Definition errno (code what path : string) : Py.exn :=
  Py.OSError ("[Errno " +:+ code +:+ "] " +:+ what +:+ ": " +:+ Py.repr path).

(** [open(path, mode='r')] followed by reading every record. *)
Definition read_records (path : string) (w : world) : result (list (list string)) :=
  match files w !! path with
  | None => Raise (errno "2" "No such file or directory" path)
  | Some Directory => Raise (errno "21" "Is a directory" path)
  | Some (RegularFile false _ _) => Raise (errno "13" "Permission denied" path)
  | Some (RegularFile true _ records) => Ok records
  end.

(** [open(path, mode='w')]: the file is created or emptied. *)
Definition open_w (path : string) (w : world) : result unit * world :=
  match files w !! path with
  | None => (Ok (), mk_world (<[path := RegularFile true true []]> (files w)) (stdout w))
  | Some Directory => (Raise (errno "21" "Is a directory" path), w)
  | Some (RegularFile _ false _) => (Raise (errno "13" "Permission denied" path), w)
  | Some (RegularFile r true _) =>
      (Ok (), mk_world (<[path := RegularFile r true []]> (files w)) (stdout w))
  end.

(** [csv.writer(file).writerow(row)] on a file open for writing. *)
Definition writerow (path : string) (row : list string) (w : world) : world :=
  match files w !! path with
  | Some (RegularFile r wr records) =>
      mk_world (<[path := RegularFile r wr (records ++ [row])]> (files w)) (stdout w)
  | _ => w
  end.

(** [print(line)] *)
Definition print (line : string) (w : world) : world :=
  mk_world (files w) (stdout w ++ [line]).

End OS.

(** ** The class [UKNumberPlateGenerator] *)

Module UKNumberPlateGenerator.

(** The attributes of an instance; an attribute that was never assigned
    is absent. *)
Record instance : Type := mk_instance {
  save_file_path : option string;
  existing_generated_plates : option (gset string)
}.

Record state : Type := mk_state { self : instance; world : OS.world }.

(** Code that runs on the state and returns or raises. *)
Definition M (A : Type) : Type := state → result A * state.

Definition ret {A} (a : A) : M A := λ s, (Ok a, s).
Definition raise {A} (e : Py.exn) : M A := λ s, (Raise e, s).
Definition bind {A B} (m : M A) (k : A → M B) : M B :=
  λ s, match m s with
       | (Ok a, s') => k a s'
       | (Raise e, s') => (Raise e, s')
       end.

Declare Scope py_scope.
Delimit Scope py_scope with py.
Notation "x <- m ;; k" := (bind m (λ x, k))
  (at level 100, m at next level, right associativity) : py_scope.
Notation "m ;; k" := (bind m (λ _, k))
  (at level 100, right associativity) : py_scope.
Local Open Scope py_scope.

Definition lift {A} (r : result A) : M A := λ s, (r, s).

(** [try: m  except IOError as err: h err] *)
Definition try_except_IOError {A} (m : M A) (h : Py.exn → M A) : M A :=
  λ s, match m s with
       | (Raise (Py.OSError msg), s') => h (Py.OSError msg) s'
       | other => other
       end.

Definition no_attribute (name : string) : Py.exn :=
  Py.AttributeError ("'UKNumberPlateGenerator' object has no attribute '" +:+ name +:+ "'").

Definition get_save_file_path : M string :=
  λ s, match save_file_path (self s) with
       | Some p => (Ok p, s)
       | None => (Raise (no_attribute "save_file_path"), s)
       end.

Definition get_existing_generated_plates : M (gset string) :=
  λ s, match existing_generated_plates (self s) with
       | Some plates => (Ok plates, s)
       | None => (Raise (no_attribute "existing_generated_plates"), s)
       end.

Definition set_save_file_path (p : string) : M unit :=
  λ s, (Ok (), mk_state (mk_instance (Some p) (existing_generated_plates (self s))) (world s)).

Definition set_existing_generated_plates (plates : gset string) : M unit :=
  λ s, (Ok (), mk_state (mk_instance (save_file_path (self s)) (Some plates)) (world s)).

Definition print (line : string) : M unit :=
  λ s, (Ok (), mk_state (self s) (OS.print line (world s))).

Definition isfile (path : string) : M bool :=
  λ s, (Ok (OS.isfile path (world s)), s).

Definition read_records (path : string) : M (list (list string)) :=
  λ s, (OS.read_records path (world s), s).

Definition open_w (path : string) : M unit :=
  λ s, let '(r, w) := OS.open_w path (world s) in (r, mk_state (self s) w).

Definition writerow (path : string) (row : list string) : M unit :=
  λ s, (Ok (), mk_state (self s) (OS.writerow path row (world s))).

(** [for x in xs: body x] *)
Fixpoint for_each {A} (xs : list A) (body : A → M unit) : M unit :=
  match xs with
  | [] => ret ()
  | x :: xs' => body x;; for_each xs' body
  end.

(** [itertools.product(pool, repeat=n)], in its lexicographic order. *)
Fixpoint product {A} (pool : list A) (repeat : nat) : list (list A) :=
  match repeat with
  | O => [[]]
  | S n => x ← pool; (λ combo, x :: combo) <$> product pool n
  end.

Definition ascii_uppercase : string := "ABCDEFGHIJKLMNOPQRSTUVWXYZ".

Definition allowed_plate_chars : list ascii :=
  filter (λ char, Py.contains (String char EmptyString) "IQZ" = false)
         (Py.chars ascii_uppercase).

Definition all_possible_random_strings : list string :=
  Py.join <$> product allowed_plate_chars 3.

(** [xs[index]] for a list and a non-negative index. *)
Definition getitem {A} (xs : list A) (index : nat) : M A :=
  match xs !! index with
  | Some x => ret x
  | None => raise (Py.IndexError "list index out of range")
  end.

(** The rows loop of [load_from_csv]: the first field of every row that
    is not empty is appended to [csv_rows]. *)
Fixpoint collect_rows (reader : list (list string)) (csv_rows : list string) : list string :=
  match reader with
  | [] => csv_rows
  | row :: reader' =>
      match row with
      | [] => collect_rows reader' csv_rows
      | field :: _ => collect_rows reader' (csv_rows ++ [field])
      end
  end.

Definition load_from_csv : M (gset string) :=
  path <- get_save_file_path;;
  reader <- read_records path;;
  let csv_rows := collect_rows reader [] in
  path' <- get_save_file_path;;
  print ("successfully loaded " +:+ Py.str (Z.of_nat (length csv_rows)) +:+
         " rows from '" +:+ path' +:+ "'");;
  ret (list_to_set csv_rows).

Definition __init__ (save_file_path : string) : M unit :=
  set_save_file_path save_file_path;;
  if negb (bool_decide (Py.slice_from (-4) save_file_path = ".csv"))
  then raise (Py.ValueError "File must be a .csv file")
  else
    try_except_IOError
      (path <- get_save_file_path;;
       is_file <- isfile path;;
       if is_file
       then (plates <- load_from_csv;; set_existing_generated_plates plates)
       else set_existing_generated_plates ∅)
      (λ err, print "Failed to load existing generated plates due to {err}").

(** [UKNumberPlateGenerator(save_file_path)]: a new object is
    initialised, and handed to the caller only if [__init__] returns. *)
Definition new (save_file_path : string) (w : OS.world) : result instance * OS.world :=
  match __init__ save_file_path (mk_state (mk_instance None None) w) with
  | (Ok _, s) => (Ok (self s), world s)
  | (Raise e, s) => (Raise e, world s)
  end.

Definition generate_age_identifier (date_created : Datetime.datetime) : string :=
  let year := Datetime.year date_created in
  let month := Datetime.month date_created in
  if (3 <=? month)%Z && (month <=? 8)%Z
  then Py.slice_from (-2) (Py.str year)
  else Py.slice_from (-2) (Py.str (year + 50)).

(** The loop of [generate_available_random_string] over the values [range]
    of [i] that are still to come. *)
Fixpoint scan (strings : list string) (start_index : nat)
    (number_plate_prefix : string) (range : list nat) : M string :=
  match range with
  | [] => raise (Py.ValueError "No more unique strings available")
  | i :: range' =>
      let index := (start_index + i) mod length strings in
      random_string <- getitem strings index;;
      plates <- get_existing_generated_plates;;
      if bool_decide (number_plate_prefix +:+ " " +:+ random_string ∈ plates)
      then scan strings start_index number_plate_prefix range'
      else ret random_string
  end.

(** [start_index] is the value that [random.randint(0, len - 1)]
    returns in this call. *)
Definition generate_available_random_string (start_index : nat)
    (number_plate_prefix : string) : M string :=
  scan all_possible_random_strings start_index number_plate_prefix
       (seq 0 (length all_possible_random_strings)).

Definition generate_numberplate (start_index : nat)
    (dvla_memory_tag date_created_str : string) : M string :=
  date_created <- lift (Datetime.strptime date_created_str);;
  let dvla_memory_tag := Py.upper dvla_memory_tag in
  if Py.any ((λ invalid_char, Py.contains invalid_char dvla_memory_tag) <$> ["I"; "Q"; "Z"])
  then raise (Py.ValueError "I, Q, Z not allowed in UK number plates")
  else if negb (Py.len dvla_memory_tag =? 2)
  then raise (Py.ValueError "DVLA memory tag must be 2 characters in length")
  else
    let age_identifier := generate_age_identifier date_created in
    let number_plate_prefix := dvla_memory_tag +:+ age_identifier in
    random_string <- generate_available_random_string start_index number_plate_prefix;;
    let generated_number_plate := number_plate_prefix +:+ " " +:+ random_string in
    plates <- get_existing_generated_plates;;
    set_existing_generated_plates (plates ∪ {[generated_number_plate]});;
    ret generated_number_plate.

Section Save.

(** The order in which Python iterates over a set is not specified. *)
Variable set_iter : gset string → list string.

Definition save_to_csv : M unit :=
  path <- get_save_file_path;;
  open_w path;;
  plates <- get_existing_generated_plates;;
  for_each (set_iter plates) (λ string, writerow path [string]);;
  print ("Successfully saved " +:+ Py.str (Z.of_nat (size plates)) +:+
         " existing generated plates to '" +:+ path +:+ "'").

End Save.

(** The script at the end of the file, run as a program. *)
Section Main.

Variable set_iter : gset string → list string.

(** The values that [random.randint] returns in the four calls. *)
Variable start_index1 start_index2 start_index3 start_index4 : nat.

Definition main (w : OS.world) : result unit * OS.world :=
  match new "plates.csv" w with
  | (Raise e, w') => (Raise e, w')
  | (Ok generator, w') =>
      let '(r, s) :=
        (plate <- generate_numberplate start_index1 "YP" "01/04/2010";;
         plate2 <- generate_numberplate start_index2 "YP" "03/04/2010";;
         plate3 <- generate_numberplate start_index3 "YP" "03/04/2010";;
         plate4 <- generate_numberplate start_index4 "YP" "03/04/2010";;
         print plate;;
         print plate2;;
         print plate3;;
         save_to_csv set_iter) (mk_state generator w') in
      (r, world s)
  end.

End Main.

End UKNumberPlateGenerator.

(** ** The specification's notions, in its own words *)

Module Spec.

Import UKNumberPlateGenerator.

(** The last two digits of [n]: a code of two decimal digits, the tens and
    the units of [n]. *)
Definition last_two_digits (n : Z) : string :=
  String (Py.digit (n / 10 mod 10)) (String (Py.digit (n mod 10)) EmptyString).

(** The identifier [prefix + " " + c] is in the Tracked Set. *)
Definition taken (plates : gset string) (prefix c : string) : Prop :=
  prefix +:+ " " +:+ c ∈ plates.

#[global] Instance taken_dec plates prefix c : Decision (taken plates prefix c) :=
  decide (prefix +:+ " " +:+ c ∈ plates).

(** [c] is the first free candidate met when the enumeration [strings] is
    scanned forward from index [i], wrapping around modulo its size. *)
Definition first_free_from (strings : list string) (plates : gset string)
    (prefix : string) (i : nat) (c : string) : Prop :=
  ∃ k, k < length strings ∧
       strings !! ((i + k) mod length strings) = Some c ∧
       ¬ taken plates prefix c ∧
       ∀ j, j < k → ∃ c', strings !! ((i + j) mod length strings) = Some c' ∧
                          taken plates prefix c'.

(** One of the letters I, Q, Z occurs in the tag. *)
Definition has_excluded_letter (tag : string) : Prop :=
  ∃ c : ascii, c ∈ ["I"; "Q"; "Z"]%char ∧ c ∈ Py.chars tag.

(** The messages of the error surface. *)
Definition excluded_letter_error : Py.exn :=
  Py.ValueError "I, Q, Z not allowed in UK number plates".
Definition tag_length_error : Py.exn :=
  Py.ValueError "DVLA memory tag must be 2 characters in length".
Definition exhaustion_error : Py.exn :=
  Py.ValueError "No more unique strings available".
Definition extension_error : Py.exn :=
  Py.ValueError "File must be a .csv file".

(** A character that [repr] writes as it is inside single quotes:
    printable, and neither the single quote nor the backslash. *)
Definition plain_char (c : ascii) : bool :=
  (32 <=? N_of_ascii c)%N && (N_of_ascii c <? 127)%N &&
  negb (bool_decide (c = Py.single_quote)) && negb (bool_decide (c = Py.backslash)).

Definition plain_text (s : string) : bool := forallb plain_char (Py.chars s).

(** The date-format message, carrying the literal input between single
    quotes. *)
Definition date_format_error (input : string) : Py.exn :=
  Py.ValueError ("time data '" +:+ input +:+ "' does not match format '%d/%m/%Y'").

(** The path ends in the extension [.csv]. *)
Definition ends_in_csv (path : string) : Prop := ∃ stem, path = stem +:+ ".csv".

(** The instance holds the Tracked Set [plates]. *)
Definition tracks (g : instance) (plates : gset string) : Prop :=
  existing_generated_plates g = Some plates.

End Spec.

(** ** The fixtures of the test suite *)

Module Fixtures.

Import UKNumberPlateGenerator.

(** No file anywhere, nothing printed yet. *)
Definition empty_world : OS.world := OS.mk_world ∅ [].

(** The generator of the tests: built on [test.csv], then given the
    Tracked Set [plates]. *)
Definition generator (plates : gset string) : state :=
  mk_state (mk_instance (Some "test.csv") (Some plates)) empty_world.

(** Every suffix taken for [prefix]. *)
Definition all_taken (prefix : string) : gset string :=
  list_to_set ((λ combo, prefix +:+ " " +:+ combo) <$> all_possible_random_strings).

(** The file [plates.csv] exists, holds one plate, and cannot be read. *)
Definition unreadable_world : OS.world :=
  OS.mk_world {[ "plates.csv" := OS.RegularFile false true [["YR67 AAF"]] ]} [].

(** The file [test.csv] holds [records] and can be read and written. *)
Definition stored_world (records : list (list string)) : OS.world :=
  OS.mk_world {[ "test.csv" := OS.RegularFile true true records ]} [].

(** One file or directory, nothing printed yet. *)
Definition world_with (path : string) (node : OS.node) : OS.world :=
  OS.mk_world {[ path := node ]} [].

(** The generator of the tests in a given world. *)
Definition generator_in (plates : gset string) (w : OS.world) : state :=
  mk_state (mk_instance (Some "test.csv") (Some plates)) w.

End Fixtures.

(** ** Runs of a client *)

Module Run.

Import UKNumberPlateGenerator.

(** A client calls [generate_numberplate] any number of times on one
    generator, with any arguments: [mints s minted s'] is a run from the
    state [s] to the state [s'] in which the calls that returned
    returned the plates [minted], in this order.  A call that raises is
    part of the run; the client catches the error and goes on. *)
Inductive mints : state → list string → state → Prop :=
| mints_nil (s : state) : mints s [] s
| mints_plate (s s1 s' : state) (start_index : nat)
    (dvla_memory_tag date_created_str plate : string) (minted : list string) :
    generate_numberplate start_index dvla_memory_tag date_created_str s = (Ok plate, s1) →
    mints s1 minted s' →
    mints s (plate :: minted) s'
| mints_raise (s s1 s' : state) (start_index : nat)
    (dvla_memory_tag date_created_str : string) (e : Py.exn) (minted : list string) :
    generate_numberplate start_index dvla_memory_tag date_created_str s = (Raise e, s1) →
    mints s1 minted s' →
    mints s minted s'.

End Run.

(** * Properties *)

Import UKNumberPlateGenerator.

(** ** Text *)

Local Arguments String.append !_ _ / : simpl nomatch.

Lemma len_app (s t : string) : Py.len (s +:+ t) = Py.len s + Py.len t.
Proof. induction s as [|c s IH]; simpl; [done | by rewrite IH]. Qed.

Lemma drop_chars_app (s t : string) : Py.drop_chars (Py.len s) (s +:+ t) = t.
Proof. induction s as [|c s IH]; simpl; [by destruct t | exact IH]. Qed.

Lemma drop_chars_split (n : nat) (s : string) :
  ∃ pre, s = pre +:+ Py.drop_chars n s.
Proof.
  revert s. induction n as [|n IH]; intros s.
  - by exists EmptyString.
  - destruct s as [|c s]; [by exists EmptyString |].
    destruct (IH s) as [pre Hpre]. exists (String c pre). cbn [String.append Py.drop_chars]. by rewrite <- Hpre.
Qed.

(** A negative slice start that does not reach past the beginning cuts
    off exactly the last characters. *)
Lemma slice_from_suffix (k : nat) (pre suf : string) :
  0 < k → Py.len suf = k → Py.slice_from (- Z.of_nat k) (pre +:+ suf) = suf.
Proof.
  intros Hk Hlen. unfold Py.slice_from. rewrite len_app, Hlen.
  replace (- Z.of_nat k <? 0)%Z with true by (symmetry; apply Z.ltb_lt; lia).
  replace (Z.to_nat _) with (Py.len pre) by lia.
  apply drop_chars_app.
Qed.

(** A text shorter than the slice is returned whole. *)
Lemma slice_from_short (k : nat) (s : string) :
  0 < k → Py.len s ≤ k → Py.slice_from (- Z.of_nat k) s = s.
Proof.
  intros Hk Hlen. unfold Py.slice_from.
  replace (- Z.of_nat k <? 0)%Z with true by (symmetry; apply Z.ltb_lt; lia).
  replace (Z.to_nat _) with 0 by lia. done.
Qed.

(** ** Decimal numerals *)

Lemma str_digits_acc (fuel : nat) (n : Z) (acc : string) :
  ∃ pre, Py.str_digits fuel n acc = pre +:+ acc.
Proof.
  revert n acc. induction fuel as [|fuel IH]; intros n acc; simpl.
  - by exists EmptyString.
  - destruct (n <? 10)%Z.
    + by exists (String (Py.digit (n mod 10)) EmptyString).
    + destruct (IH (n / 10)%Z (String (Py.digit (n mod 10)) acc)) as [pre Hpre].
      exists (pre +:+ String (Py.digit (n mod 10)) EmptyString).
      rewrite Hpre. clear.
      induction pre as [|c pre IHp]; cbn [String.append]; [done | by rewrite IHp].
Qed.

(** From 10 on, a numeral ends with the tens and the units. *)
Lemma str_ends_with_last_two_digits (n : Z) :
  (10 ≤ n)%Z → ∃ pre, Py.str n = pre +:+ Spec.last_two_digits n.
Proof.
  intros Hn. unfold Py.str.
  replace (n <? 0)%Z with false by (symmetry; apply Z.ltb_ge; lia).
  assert (3 ≤ Z.log2 n)%Z as Hlog.
  { change 3%Z with (Z.log2 8). apply Z.log2_le_mono. lia. }
  destruct (Z.to_nat (Z.log2 n)) as [|fuel] eqn:Hfuel; [lia |].
  cbn [Py.str_digits].
  replace (n <? 10)%Z with false by (symmetry; apply Z.ltb_ge; lia).
  destruct (n / 10 <? 10)%Z.
  - by exists EmptyString.
  - destruct (str_digits_acc fuel (n / 10 / 10)
                (String (Py.digit (n / 10 mod 10)) (String (Py.digit (n mod 10)) EmptyString)))
      as [pre Hpre].
    exists pre. exact Hpre.
Qed.

Lemma slice_str_last_two_digits (n : Z) :
  (10 ≤ n)%Z → Py.slice_from (-2) (Py.str n) = Spec.last_two_digits n.
Proof.
  intros Hn. destruct (str_ends_with_last_two_digits n Hn) as [pre ->].
  apply (slice_from_suffix 2); [lia | done].
Qed.

(** ** The age identifier *)

(** From the year 10 on the age identifier is the two-digit code of the
    year (March to August) or of the year plus 50 (other months). *)
Lemma generate_age_identifier_from_year_10 (dt : Datetime.datetime) :
  (10 ≤ Datetime.year dt)%Z →
  generate_age_identifier dt =
    if bool_decide (3 ≤ Datetime.month dt ≤ 8)%Z
    then Spec.last_two_digits (Datetime.year dt)
    else Spec.last_two_digits (Datetime.year dt + 50).
Proof.
  intros Hy. unfold generate_age_identifier.
  case_bool_decide as Hm.
  - replace ((3 <=? _)%Z && _) with true by (symmetry; apply andb_true_iff; lia).
    by apply slice_str_last_two_digits.
  - replace ((3 <=? _)%Z && _) with false by (symmetry; apply andb_false_iff; lia).
    apply slice_str_last_two_digits. lia.
Qed.

(** Outside March to August every valid date gets the two-digit code of
    the year plus 50. *)
Lemma generate_age_identifier_other_months (dt : Datetime.datetime) :
  Datetime.valid dt → ¬ (3 ≤ Datetime.month dt ≤ 8)%Z →
  generate_age_identifier dt = Spec.last_two_digits (Datetime.year dt + 50).
Proof.
  intros (Hy & _) Hm. unfold generate_age_identifier, Datetime.MINYEAR in *.
  replace ((3 <=? _)%Z && _) with false by (symmetry; apply andb_false_iff; lia).
  apply slice_str_last_two_digits. lia.
Qed.

(** C5: the age identifier of 1 April of the year 5, a valid date in
    the months March to August, is the one-character text [5]; it is not
    the two-digit code [05] of the year. *)
Theorem generate_age_identifier_year_5 :
  Datetime.valid (Datetime.mk_datetime 5 4 1) ∧
  generate_age_identifier (Datetime.mk_datetime 5 4 1) = "5" ∧
  Spec.last_two_digits 5 = "05" ∧
  Py.len (generate_age_identifier (Datetime.mk_datetime 5 4 1)) = 1.
Proof. repeat split; vm_compute; congruence. Qed.

(** The dates of the test suite. *)
Example generate_age_identifier_tests :
  generate_age_identifier (Datetime.mk_datetime 2010 4 3) = "10" ∧
  generate_age_identifier (Datetime.mk_datetime 2001 9 25) = "51" ∧
  generate_age_identifier (Datetime.mk_datetime 2007 3 1) = "07".
Proof. by vm_compute. Qed.

(** ** The suffix table *)

Lemma all_possible_random_strings_length : length all_possible_random_strings = 12167.
Proof. vm_compute. reflexivity. Qed.

Lemma allowed_plate_chars_eq :
  allowed_plate_chars = Py.chars "ABCDEFGHJKLMNOPRSTUVWXY".
Proof. vm_compute. reflexivity. Qed.

(** ** The circular scan *)

Lemma probe_lt (n start k : nat) : 0 < n → (start + k) mod n < n.
Proof. intros. apply Nat.mod_upper_bound. lia. Qed.

(** Within one wrap no index is probed twice. *)
Lemma probe_inj (n start k k' : nat) :
  k < n → k' < n → (start + k) mod n = (start + k') mod n → k = k'.
Proof.
  intros Hk Hk' Heq.
  pose proof (Nat.div_mod_eq (start + k) n) as E1.
  pose proof (Nat.div_mod_eq (start + k') n) as E2.
  rewrite Heq in E1.
  destruct (lt_eq_lt_dec ((start + k) / n) ((start + k') / n)) as [[Hlt | Heqq] | Hgt]; nia.
Qed.

(** One wrap probes every index. *)
Lemma probe_surj (n start idx : nat) :
  idx < n → ∃ k, k < n ∧ (start + k) mod n = idx.
Proof.
  intros Hidx.
  pose proof (Nat.div_mod_eq start n) as E.
  pose proof (Nat.mod_upper_bound start n ltac:(lia)) as Hr.
  destruct (le_lt_dec (start mod n) idx) as [Hle | Hlt].
  - exists (idx - start mod n). split; [lia |].
    symmetry. apply (Nat.mod_unique _ _ (start / n)); [done | lia].
  - exists (idx + n - start mod n). split; [lia |].
    symmetry. apply (Nat.mod_unique _ _ (S (start / n))); [done | nia].
Qed.

Section Scan.

Variable strings : list string.
Variable start_index : nat.
Variable prefix : string.
Variable plates : gset string.
Variable s : state.
Hypothesis s_tracks : Spec.tracks (self s) plates.
Hypothesis strings_not_empty : 0 < length strings.

(** One turn of the loop. *)
Lemma scan_cons (i : nat) (range : list nat) (c : string) :
  strings !! ((start_index + i) mod length strings) = Some c →
  scan strings start_index prefix (i :: range) s =
    if bool_decide (Spec.taken plates prefix c)
    then scan strings start_index prefix range s
    else (Ok c, s).
Proof.
  intros Hc. cbn [scan]. unfold bind at 1, getitem. rewrite Hc.
  unfold ret at 1, bind at 1, get_existing_generated_plates.
  rewrite s_tracks. unfold Spec.taken_dec, Spec.taken, decide.
  by destruct (bool_decide _).
Qed.

(** The loop over [a, a + m): it returns the first free candidate it
    probes and raises when it probes none, and leaves the state alone. *)
Lemma scan_seq (m a : nat) :
  (∃ k c, a ≤ k < a + m ∧
          strings !! ((start_index + k) mod length strings) = Some c ∧
          ¬ Spec.taken plates prefix c ∧
          (∀ j, a ≤ j < k →
                ∃ c', strings !! ((start_index + j) mod length strings) = Some c' ∧
                      Spec.taken plates prefix c') ∧
          scan strings start_index prefix (seq a m) s = (Ok c, s))
  ∨ ((∀ j, a ≤ j < a + m →
           ∃ c', strings !! ((start_index + j) mod length strings) = Some c' ∧
                 Spec.taken plates prefix c') ∧
     scan strings start_index prefix (seq a m) s =
       (Raise (Py.ValueError "No more unique strings available"), s)).
Proof.
  revert a. induction m as [|m IH]; intros a.
  - right. split; [intros j Hj; lia | done].
  - destruct (lookup_lt_is_Some_2 strings ((start_index + a) mod length strings)
                (probe_lt _ _ _ strings_not_empty)) as [c Hc].
    cbn [seq]. rewrite (scan_cons _ _ _ Hc).
    case_bool_decide as Htaken.
    + destruct (IH (S a)) as [(k & c' & Hk & Hc' & Hfree & Hbefore & Hrun) | [Hall Hrun]].
      * left. exists k, c'. split_and!; try done; try lia.
        intros j Hj. destruct (decide (j = a)) as [-> | Hne]; [eauto |].
        apply Hbefore. lia.
      * right. split; [| done].
        intros j Hj. destruct (decide (j = a)) as [-> | Hne]; [eauto |].
        apply Hall. lia.
    + left. exists a, c. split_and!; try done; lia.
Qed.

(** When the scan of a whole wrap probes only taken candidates, every
    candidate of the table is taken. *)
Lemma whole_wrap_taken :
  (∀ j, 0 ≤ j < 0 + length strings →
        ∃ c', strings !! ((start_index + j) mod length strings) = Some c' ∧
              Spec.taken plates prefix c') →
  ∀ c, c ∈ strings → Spec.taken plates prefix c.
Proof.
  intros Hall c Hin.
  apply list_elem_of_lookup in Hin as [idx Hidx].
  destruct (probe_surj (length strings) start_index idx) as (k & Hk & Hprobe).
  { by eapply lookup_lt_Some. }
  destruct (Hall k ltac:(lia)) as (c' & Hc' & Htaken).
  rewrite Hprobe in Hc'. congruence.
Qed.

(** The scan of a whole wrap returns the first free candidate in
    circular order from the start index, when there is a free one. *)
Lemma scan_whole_wrap_free :
  (∃ c, c ∈ strings ∧ ¬ Spec.taken plates prefix c) →
  ∃ c, scan strings start_index prefix (seq 0 (length strings)) s = (Ok c, s) ∧
       Spec.first_free_from strings plates prefix start_index c.
Proof.
  intros (c0 & Hin & Hfree0).
  destruct (scan_seq (length strings) 0)
    as [(k & c & Hk & Hc & Hfree & Hbefore & Hrun) | [Hall Hrun]].
  - exists c. split; [done |]. exists k. split_and!; try done; try lia.
    intros j Hj. apply Hbefore. lia.
  - destruct Hfree0. by apply whole_wrap_taken.
Qed.

(** The scan of a whole wrap raises exactly when no candidate is free. *)
Lemma scan_whole_wrap_exhausted :
  scan strings start_index prefix (seq 0 (length strings)) s =
    (Raise (Py.ValueError "No more unique strings available"), s)
  ↔ ∀ c, c ∈ strings → Spec.taken plates prefix c.
Proof.
  destruct (scan_seq (length strings) 0)
    as [(k & c & Hk & Hc & Hfree & Hbefore & Hrun) | [Hall Hrun]].
  - split.
    + intros Hraise. rewrite Hrun in Hraise. discriminate.
    + intros Htaken. destruct Hfree. apply Htaken.
      apply list_elem_of_lookup. eauto.
  - split; [intros _; by apply whole_wrap_taken | done].
Qed.

End Scan.

Lemma all_possible_random_strings_ends :
  all_possible_random_strings !! 0 = Some "AAA" ∧
  all_possible_random_strings !! 12166 = Some "YYY".
Proof. split; vm_compute; reflexivity. Qed.

Opaque all_possible_random_strings.

Lemma start_index_in_range (i : nat) :
  i ≤ 12166 ↔ i < length all_possible_random_strings.
Proof.
  rewrite all_possible_random_strings_length.
  change 12167 with (S 12166). symmetry. apply Nat.lt_succ_r.
Qed.

(** C1: when some candidate is free for the prefix, the call returns the
    first free candidate in circular forward order from the start index
    over the table of the 12167 three-letter texts; the returned suffix
    is not taken, and with an empty Tracked Set it is the table's element
    at the start index (AAA at 0, YYY at 12166). *)
Theorem generate_available_random_string_first_free
    (prefix : string) (plates : gset string) (i : nat) (s : state) :
  Spec.tracks (self s) plates →
  i ≤ 12166 →
  (∃ c, c ∈ all_possible_random_strings ∧ ¬ Spec.taken plates prefix c) →
  length all_possible_random_strings = 12167 ∧
  allowed_plate_chars = Py.chars "ABCDEFGHJKLMNOPRSTUVWXY" ∧
  ∃ c, generate_available_random_string i prefix s = (Ok c, s) ∧
       Spec.first_free_from all_possible_random_strings plates prefix i c ∧
       ¬ Spec.taken plates prefix c ∧
       (plates = ∅ → all_possible_random_strings !! i = Some c) ∧
       (plates = ∅ → i = 0 → c = "AAA") ∧
       (plates = ∅ → i = 12166 → c = "YYY").
Proof.
  intros Hs Hi Hfree. apply start_index_in_range in Hi.
  split; [apply all_possible_random_strings_length |].
  split; [apply allowed_plate_chars_eq |].
  destruct (scan_whole_wrap_free all_possible_random_strings i prefix plates s Hs
              ltac:(lia) Hfree) as (c & Hrun & Hfirst).
  assert (plates = ∅ → all_possible_random_strings !! i = Some c) as Hempty.
  { intros ->. destruct Hfirst as (k & Hk & Hc & _ & Hbefore).
    destruct k as [|k].
    - by rewrite Nat.add_0_r, Nat.mod_small in Hc.
    - destruct (Hbefore 0 ltac:(lia)) as (c' & _ & Htaken).
      unfold Spec.taken in Htaken. set_solver. }
  exists c. split_and!; try done.
  - by destruct Hfirst as (k & _ & _ & Hfree' & _).
  - intros He ->. specialize (Hempty He).
    destruct all_possible_random_strings_ends as [H0 _]. congruence.
  - intros He ->. specialize (Hempty He).
    destruct all_possible_random_strings_ends as [_ H1]. congruence.
Qed.

(** The two outcomes of a call on an instance that holds a Tracked Set:
    the first free candidate, or the exhaustion error when none is free.
    The state is the same afterwards. *)
Lemma generate_available_random_string_cases
    (prefix : string) (plates : gset string) (i : nat) (s : state) :
  Spec.tracks (self s) plates →
  (∃ c, generate_available_random_string i prefix s = (Ok c, s) ∧
        Spec.first_free_from all_possible_random_strings plates prefix i c ∧
        ¬ Spec.taken plates prefix c)
  ∨ (generate_available_random_string i prefix s =
       (Raise (Py.ValueError "No more unique strings available"), s) ∧
     ∀ c, c ∈ all_possible_random_strings → Spec.taken plates prefix c).
Proof.
  intros Hs. unfold generate_available_random_string.
  assert (0 < length all_possible_random_strings) as Hpos.
  { apply start_index_in_range. apply Nat.le_0_l. }
  destruct (scan_seq all_possible_random_strings i prefix plates s Hs Hpos
              (length all_possible_random_strings) 0)
    as [(k & c & Hk & Hc & Hfree & Hbefore & Hrun) | [Hall Hrun]].
  - left. exists c. split_and!; try done.
    exists k. split_and!; try done; try lia.
    intros j Hj. apply Hbefore. lia.
  - right. split; [done |]. by eapply whole_wrap_taken.
Qed.

(** Without a Tracked Set attribute the first probe raises. *)
Lemma generate_available_random_string_no_attribute
    (prefix : string) (i : nat) (s : state) :
  existing_generated_plates (self s) = None →
  generate_available_random_string i prefix s =
    (Raise (no_attribute "existing_generated_plates"), s).
Proof.
  intros Hs. unfold generate_available_random_string.
  assert (0 < length all_possible_random_strings) as Hpos.
  { apply start_index_in_range. apply Nat.le_0_l. }
  destruct (seq 0 (length all_possible_random_strings)) as [|j range] eqn:Hseq.
  { apply (f_equal length) in Hseq. rewrite length_seq in Hseq. simpl in Hseq. lia. }
  cbn [scan]. unfold bind at 1, getitem.
  destruct (lookup_lt_is_Some_2 all_possible_random_strings
              ((i + j) mod length all_possible_random_strings)) as [c Hc].
  { apply Nat.mod_upper_bound. lia. }
  rewrite Hc. unfold ret at 1, bind at 1, get_existing_generated_plates. by rewrite Hs.
Qed.

(** C4: on an instance that holds a Tracked Set, the call raises the
    exhaustion error exactly when every one of the 12167 candidates is
    taken for the prefix; the scan of one wrap probes no index twice. *)
Theorem generate_available_random_string_exhausted_iff
    (prefix : string) (plates : gset string) (i : nat) (s : state) :
  Spec.tracks (self s) plates →
  (fst (generate_available_random_string i prefix s) =
     Raise (Py.ValueError "No more unique strings available")
   ↔ ∀ c, c ∈ all_possible_random_strings → Spec.taken plates prefix c) ∧
  length all_possible_random_strings = 12167 ∧
  NoDup ((λ k, (i + k) mod length all_possible_random_strings)
           <$> seq 0 (length all_possible_random_strings)).
Proof.
  intros Hs. split_and!.
  - destruct (generate_available_random_string_cases prefix plates i s Hs)
      as [(c & Hrun & Hfirst & Hfree) | [Hrun Hall]]; rewrite Hrun; cbn [fst].
    + split; [discriminate |].
      intros Hall. destruct Hfree. apply Hall.
      destruct Hfirst as (k & _ & Hc & _). apply list_elem_of_lookup. eauto.
    + done.
  - apply all_possible_random_strings_length.
  - apply NoDup_fmap_2_strong; [| apply NoDup_seq].
    intros k k' Hk Hk'. apply elem_of_seq in Hk, Hk'.
    apply probe_inj; lia.
Qed.

Lemma all_taken_spec (prefix c : string) :
  c ∈ all_possible_random_strings → Spec.taken (Fixtures.all_taken prefix) prefix c.
Proof.
  intros Hc. unfold Spec.taken, Fixtures.all_taken.
  apply elem_of_list_to_set, list_elem_of_fmap. eauto.
Qed.

(** The test with prefix YA07, start index 0 and AAA, AAB taken. *)
Lemma generate_available_random_string_first_free_witness :
  generate_available_random_string 0 "YA07"
      (Fixtures.generator {[ "YA07 AAA"; "YA07 AAB" ]}) =
    (Ok "AAC", Fixtures.generator {[ "YA07 AAA"; "YA07 AAB" ]}) ∧
  Spec.first_free_from all_possible_random_strings {[ "YA07 AAA"; "YA07 AAB" ]}
    "YA07" 0 "AAC".
Proof.
  destruct (generate_available_random_string_first_free "YA07"
              {[ "YA07 AAA"; "YA07 AAB" ]} 0
              (Fixtures.generator {[ "YA07 AAA"; "YA07 AAB" ]}))
    as (_ & _ & c & Hrun & Hfirst & _).
  - reflexivity.
  - apply Nat.le_0_l.
  - exists "AAC". split.
    + apply (list_elem_of_lookup_2 _ 2). vm_compute. reflexivity.
    + unfold Spec.taken. set_solver.
  - assert (c = "AAC") as ->.
    { vm_compute in Hrun. congruence. }
    split; [exact Hrun | exact Hfirst].
Defined.

(** The test with every suffix taken for DH14. *)
Lemma generate_available_random_string_exhausted_iff_witness :
  fst (generate_available_random_string 7 "DH14"
         (Fixtures.generator (Fixtures.all_taken "DH14"))) =
    Raise (Py.ValueError "No more unique strings available").
Proof.
  apply (generate_available_random_string_exhausted_iff "DH14"
           (Fixtures.all_taken "DH14") 7
           (Fixtures.generator (Fixtures.all_taken "DH14")) eq_refl).
  intros c Hc. by apply all_taken_spec.
Defined.

(** ** Tag validation *)




(** [c in s] for a one-character text [c]. *)
Lemma contains_char (c : ascii) (s : string) :
  Py.contains (String c EmptyString) s = true ↔ c ∈ Py.chars s.
Proof.
  induction s as [|b s IH]; simpl.
  - split; [discriminate | by intros ?%elem_of_nil].
  - rewrite orb_true_iff, andb_true_iff, bool_decide_eq_true, IH, elem_of_cons.
    destruct s; naive_solver.
Qed.

(** The test of line 89 of the source is the specification's. *)
Lemma any_excluded_letter (tag : string) :
  Py.any ((λ invalid_char, Py.contains invalid_char tag) <$> ["I"; "Q"; "Z"]) = true
  ↔ Spec.has_excluded_letter tag.
Proof.
  unfold Py.any, Spec.has_excluded_letter. cbn [fmap list_fmap existsb id].
  rewrite !orb_true_iff, !contains_char. split.
  - intros [H | [H | [H | H]]]; [| | | done]; eexists; (split; [| exact H]); set_solver.
  - intros (c & Hc & Hin). set_solver.
Qed.

(** ** Minting a number plate: the paths through [generate_numberplate] *)

Section Mint.

Variable start_index : nat.
Variable dvla_memory_tag date_created_str : string.
Variable s : state.

Local Abbreviation call :=
  (generate_numberplate start_index dvla_memory_tag date_created_str s).
Local Abbreviation tag := (Py.upper dvla_memory_tag).

Lemma generate_numberplate_date_error (e : Py.exn) :
  Datetime.strptime date_created_str = Raise e → call = (Raise e, s).
Proof. intros H. unfold generate_numberplate, bind at 1, lift. by rewrite H. Qed.

Lemma generate_numberplate_excluded_letter (dt : Datetime.datetime) :
  Datetime.strptime date_created_str = Ok dt →
  Spec.has_excluded_letter tag →
  call = (Raise Spec.excluded_letter_error, s).
Proof.
  intros Hd Hx%any_excluded_letter.
  unfold generate_numberplate, bind at 1, lift. rewrite Hd. by rewrite Hx.
Qed.

Lemma generate_numberplate_tag_length (dt : Datetime.datetime) :
  Datetime.strptime date_created_str = Ok dt →
  ¬ Spec.has_excluded_letter tag →
  Py.len tag ≠ 2 →
  call = (Raise Spec.tag_length_error, s).
Proof.
  intros Hd Hx Hlen.
  unfold generate_numberplate, bind at 1, lift. rewrite Hd.
  destruct (Py.any _) eqn:Hany; [by apply any_excluded_letter in Hany |].
  by apply Nat.eqb_neq in Hlen as ->.
Qed.

(** Past validation the call is the search for a suffix, then the
    insertion into the Tracked Set. *)
Lemma generate_numberplate_valid (dt : Datetime.datetime) :
  Datetime.strptime date_created_str = Ok dt →
  ¬ Spec.has_excluded_letter tag →
  Py.len tag = 2 →
  call =
    match generate_available_random_string start_index
            (tag +:+ generate_age_identifier dt) s with
    | (Ok random_string, s') =>
        match existing_generated_plates (self s') with
        | Some plates =>
            (Ok ((tag +:+ generate_age_identifier dt) +:+ " " +:+ random_string),
             mk_state (mk_instance (save_file_path (self s'))
                         (Some (plates ∪ {[(tag +:+ generate_age_identifier dt) +:+ " "
                                           +:+ random_string]})))
                      (world s'))
        | None => (Raise (no_attribute "existing_generated_plates"), s')
        end
    | (Raise e, s') => (Raise e, s')
    end.
Proof.
  intros Hd Hx Hlen.
  unfold generate_numberplate, bind at 1, lift. rewrite Hd.
  destruct (Py.any _) eqn:Hany; [by apply any_excluded_letter in Hany |].
  apply Nat.eqb_eq in Hlen as ->. cbn [negb].
  unfold bind at 1.
  destruct (generate_available_random_string _ _ s) as [[c | e] s']; [| done].
  unfold bind at 1, get_existing_generated_plates.
  destruct (existing_generated_plates (self s')) as [plates |]; [| done].
  unfold bind, set_existing_generated_plates, ret. done.
Qed.

End Mint.

(** Every call takes one of six paths: the date does not parse; the tag
    has an excluded letter; the tag has the wrong length; the instance
    has no Tracked Set; every suffix is taken; or a plate is minted. *)
Lemma generate_numberplate_outcomes
    (i : nat) (dvla_memory_tag date_created_str : string) (s : state) :
  let call := generate_numberplate i dvla_memory_tag date_created_str s in
  let tag := Py.upper dvla_memory_tag in
  (∃ e, Datetime.strptime date_created_str = Raise e ∧ call = (Raise e, s))
  ∨ ∃ dt, Datetime.strptime date_created_str = Ok dt ∧
     ((Spec.has_excluded_letter tag ∧ call = (Raise Spec.excluded_letter_error, s))
      ∨ (¬ Spec.has_excluded_letter tag ∧
         ((Py.len tag ≠ 2 ∧ call = (Raise Spec.tag_length_error, s))
          ∨ (Py.len tag = 2 ∧
             ((existing_generated_plates (self s) = None ∧
               call = (Raise (no_attribute "existing_generated_plates"), s))
              ∨ ∃ plates, Spec.tracks (self s) plates ∧
                 ((call = (Raise Spec.exhaustion_error, s) ∧
                   ∀ c, c ∈ all_possible_random_strings →
                        Spec.taken plates (tag +:+ generate_age_identifier dt) c)
                  ∨ ∃ c, generate_available_random_string i
                           (tag +:+ generate_age_identifier dt) s = (Ok c, s) ∧
                         Spec.first_free_from all_possible_random_strings plates
                           (tag +:+ generate_age_identifier dt) i c ∧
                         ¬ Spec.taken plates (tag +:+ generate_age_identifier dt) c ∧
                         call =
                           (Ok ((tag +:+ generate_age_identifier dt) +:+ " " +:+ c),
                            mk_state
                              (mk_instance (save_file_path (self s))
                                 (Some (plates ∪
                                    {[(tag +:+ generate_age_identifier dt) +:+ " " +:+ c]})))
                              (world s)))))))).
Proof.
  intros call tag. subst call tag.
  destruct (Datetime.strptime date_created_str) as [dt | e] eqn:Hd.
  2: { left. exists e. split; [done |]. by apply generate_numberplate_date_error. }
  right. exists dt. split; [done |].
  destruct (Py.any ((λ invalid_char, Py.contains invalid_char (Py.upper dvla_memory_tag))
                      <$> ["I"; "Q"; "Z"])) eqn:Hany.
  { apply any_excluded_letter in Hany. left. split; [done |].
    by eapply generate_numberplate_excluded_letter. }
  assert (¬ Spec.has_excluded_letter (Py.upper dvla_memory_tag)) as Hx.
  { intros H%any_excluded_letter. congruence. }
  right. split; [done |].
  destruct (decide (Py.len (Py.upper dvla_memory_tag) = 2)) as [Hlen | Hlen].
  2: { left. split; [done |]. by eapply generate_numberplate_tag_length. }
  right. split; [done |].
  rewrite (generate_numberplate_valid i _ _ s dt Hd Hx Hlen).
  destruct (existing_generated_plates (self s)) as [plates |] eqn:Hattr.
  2: { left. split; [done |].
       by rewrite generate_available_random_string_no_attribute. }
  right. exists plates. split; [done |].
  destruct (generate_available_random_string_cases
              (Py.upper dvla_memory_tag +:+ generate_age_identifier dt) plates i s Hattr)
    as [(c & Hrun & Hfirst & Hfree) | [Hrun Hall]]; rewrite Hrun.
  - right. exists c. split_and!; try done. by rewrite Hattr.
  - by left.
Qed.

(** Case analysis along the six paths; the equation of the call is used
    to rewrite it everywhere. *)
Ltac outcomes i tag date s :=
  let H := fresh "Hout" in
  pose proof (generate_numberplate_outcomes i tag date s) as H; cbn zeta in H;
  repeat match type of H with
         | _ ∨ _ => destruct H as [H | H]
         | ∃ _, _ => let x := fresh "x" in destruct H as [x H]
         | _ ∧ _ => let H' := fresh "H" in destruct H as [H' H]
         end;
  match goal with
  | Heq : generate_numberplate i tag date s = _ |- _ => rewrite ?Heq in *
  end.

(** A call that raises, for whichever reason, leaves the state as it
    was: the Tracked Set, the files and the output are unchanged; and no
    call, raising or not, touches the files. *)
Theorem generate_numberplate_raise_keeps_state
    (i : nat) (dvla_memory_tag date_created_str : string) (s : state) :
  (∀ e, fst (generate_numberplate i dvla_memory_tag date_created_str s) = Raise e →
        snd (generate_numberplate i dvla_memory_tag date_created_str s) = s ∧
        existing_generated_plates
          (self (snd (generate_numberplate i dvla_memory_tag date_created_str s))) =
          existing_generated_plates (self s)) ∧
  world (snd (generate_numberplate i dvla_memory_tag date_created_str s)) = world s.
Proof.
  outcomes i dvla_memory_tag date_created_str s;
    cbn [fst snd world]; (split; [| done]); intros e He; done.
Qed.

(** A call that returns has parsed the date and accepted the tag; the
    identifier is the uppercased tag, the age code, a blank and the suffix
    that the search returns for that prefix; it was not in the Tracked Set
    before and is the one element added to it.  The two end-to-end tests
    are instances. *)
Theorem generate_numberplate_returns
    (i : nat) (dvla_memory_tag date_created_str : string) (s : state)
    (generated_number_plate : string) :
  fst (generate_numberplate i dvla_memory_tag date_created_str s) =
    Ok generated_number_plate →
  ∃ date_created plates random_string,
    let number_plate_prefix :=
      Py.upper dvla_memory_tag +:+ generate_age_identifier date_created in
    Datetime.strptime date_created_str = Ok date_created ∧
    Py.len (Py.upper dvla_memory_tag) = 2 ∧
    ¬ Spec.has_excluded_letter (Py.upper dvla_memory_tag) ∧
    Spec.tracks (self s) plates ∧
    generate_available_random_string i number_plate_prefix s = (Ok random_string, s) ∧
    generated_number_plate = number_plate_prefix +:+ " " +:+ random_string ∧
    generated_number_plate ∉ plates ∧
    snd (generate_numberplate i dvla_memory_tag date_created_str s) =
      mk_state (mk_instance (save_file_path (self s))
                  (Some (plates ∪ {[generated_number_plate]})))
               (world s).
Proof.
  intros Hok.
  outcomes i dvla_memory_tag date_created_str s;
    cbn [fst] in Hok; try discriminate.
  injection Hok as <-. eexists _, _, _. cbn zeta. split_and!; done.
Qed.

(** The two end-to-end tests: YR on 03/11/2017 from index 5, and GH on
    06/07/2021 from index 645, each on an empty Tracked Set. *)
Lemma generate_numberplate_returns_witness :
  generate_numberplate 5 "YR" "03/11/2017" (Fixtures.generator ∅) =
    (Ok "YR67 AAF", Fixtures.generator {[ "YR67 AAF" ]}) ∧
  ∃ date_created random_string,
    Datetime.strptime "06/07/2021" = Ok date_created ∧
    generate_available_random_string 645 ("GH" +:+ generate_age_identifier date_created)
      (Fixtures.generator ∅) = (Ok random_string, Fixtures.generator ∅) ∧
    "GH21 BFB" = ("GH" +:+ generate_age_identifier date_created) +:+ " " +:+ random_string ∧
    snd (generate_numberplate 645 "GH" "06/07/2021" (Fixtures.generator ∅)) =
      Fixtures.generator (∅ ∪ {[ "GH21 BFB" ]}).
Proof.
  split.
  - vm_compute. reflexivity.
  - destruct (generate_numberplate_returns 645 "GH" "06/07/2021" (Fixtures.generator ∅)
                "GH21 BFB")
      as (dt & plates & c & Hd & _ & _ & Hs & Hrun & Hid & _ & Hstate).
    + vm_compute. reflexivity.
    + injection Hs as <-. exists dt, c. cbn zeta in *. split_and!; done.
Defined.

(** The test with the tag YQ: the call raises and the generator is as it
    was. *)
Lemma generate_numberplate_raise_keeps_state_witness :
  fst (generate_numberplate 5 "YQ" "03/11/2017" (Fixtures.generator {[ "YR67 AAF" ]})) =
    Raise Spec.excluded_letter_error ∧
  snd (generate_numberplate 5 "YQ" "03/11/2017" (Fixtures.generator {[ "YR67 AAF" ]})) =
    Fixtures.generator {[ "YR67 AAF" ]}.
Proof.
  split; [vm_compute; reflexivity |].
  apply (generate_numberplate_raise_keeps_state 5 "YQ" "03/11/2017"
           (Fixtures.generator {[ "YR67 AAF" ]}))
    with (e := Spec.excluded_letter_error).
  vm_compute. reflexivity.
Defined.

(** ** The order of validation and the messages *)

Lemma string_app_assoc (s t u : string) : (s +:+ t) +:+ u = s +:+ t +:+ u.
Proof. induction s as [|c s IH]; cbn [String.append]; [done | by rewrite IH]. Qed.

Lemma contains_empty (sub : string) :
  Py.contains sub EmptyString = Py.startswith sub EmptyString.
Proof. simpl. apply orb_false_r. Qed.

(** [repr] of a text of plain characters is the text between single
    quotes. *)
Lemma repr_body_plain (s : string) :
  Spec.plain_text s = true → Py.repr_body Py.single_quote s = s.
Proof.
  unfold Spec.plain_text. induction s as [|c s IH]; [done |].
  cbn [Py.chars String.list_ascii_of_string forallb Py.repr_body].
  intros [Hc Hs]%andb_true_iff. rewrite (IH Hs). clear IH Hs.
  unfold Spec.plain_char in Hc.
  apply andb_true_iff in Hc as [Hc Hb]. apply andb_true_iff in Hc as [Hc Hq].
  apply andb_true_iff in Hc as [Hlo Hhi].
  apply negb_true_iff in Hb, Hq.
  unfold Py.repr_char. rewrite Hq, Hb. cbn [orb].
  apply N.leb_le in Hlo. apply N.ltb_lt in Hhi.
  replace (N_of_ascii c =? 9)%N with false by (symmetry; apply N.eqb_neq; lia).
  replace (N_of_ascii c =? 10)%N with false by (symmetry; apply N.eqb_neq; lia).
  replace (N_of_ascii c =? 13)%N with false by (symmetry; apply N.eqb_neq; lia).
  replace (N_of_ascii c <? 32)%N with false by (symmetry; apply N.ltb_ge; lia).
  replace (N_of_ascii c =? 127)%N with false by (symmetry; apply N.eqb_neq; lia).
  done.
Qed.

Lemma plain_text_no_single_quote (s : string) :
  Spec.plain_text s = true →
  Py.contains (String Py.single_quote EmptyString) s = false.
Proof.
  intros Hs. apply not_true_is_false. intros Hin%contains_char.
  unfold Spec.plain_text in Hs. rewrite forallb_forall in Hs.
  specialize (Hs Py.single_quote). rewrite <- list_elem_of_In in Hs.
  specialize (Hs Hin). vm_compute in Hs. discriminate.
Qed.

Lemma repr_plain (s : string) :
  Spec.plain_text s = true → Py.repr s = "'" +:+ s +:+ "'".
Proof.
  intros Hs. unfold Py.repr.
  rewrite (plain_text_no_single_quote s Hs). cbn [andb].
  by rewrite (repr_body_plain s Hs).
Qed.

(** The message of [strptime] for a text that does not match the pattern. *)
Lemma strptime_no_match (data_string : string) :
  Re.match_ Datetime.format_regex data_string = None →
  Datetime.strptime data_string =
    Raise (Py.ValueError ("time data " +:+ Py.repr data_string +:+
                          " does not match format '%d/%m/%Y'")).
Proof. intros H. unfold Datetime.strptime. by rewrite H. Qed.

Lemma strptime_no_match_plain (data_string : string) :
  Re.match_ Datetime.format_regex data_string = None →
  Spec.plain_text data_string = true →
  Datetime.strptime data_string = Raise (Spec.date_format_error data_string).
Proof.
  intros H Hp. rewrite (strptime_no_match _ H), (repr_plain _ Hp).
  unfold Spec.date_format_error. by rewrite !string_app_assoc.
Qed.

(** A date that fails to parse need not produce the
    date-format message.  The text 31/02/2017 matches the pattern and is
    refused by the calendar; the text 03/11/20177 matches with one
    character left over. *)
Lemma generate_numberplate_other_date_messages :
  fst (generate_numberplate 5 "YR" "31/02/2017" (Fixtures.generator ∅)) =
    Raise (Py.ValueError "day is out of range for month") ∧
  fst (generate_numberplate 5 "YR" "31/02/2017" (Fixtures.generator ∅)) ≠
    Raise (Spec.date_format_error "31/02/2017") ∧
  fst (generate_numberplate 5 "YR" "03/11/20177" (Fixtures.generator ∅)) =
    Raise (Py.ValueError "unconverted data remains: 7") ∧
  fst (generate_numberplate 5 "YR" "03/11/20177" (Fixtures.generator ∅)) ≠
    Raise (Spec.date_format_error "03/11/20177").
Proof. split_and!; vm_compute; congruence. Qed.

(** Validation runs in a fixed order.  The date is parsed
    first, and the error of [strptime] surfaces whatever the tag is; it is
    the date-format message when the text does not match the pattern,
    carrying the text between single quotes when the text is plain.  Then
    the uppercased tag is checked for I, Q and Z, then its length.  The tag
    YQ gets the excluded-letter message with every date that parses. *)
Theorem generate_numberplate_validation_order
    (i : nat) (dvla_memory_tag date_created_str : string) (s : state) :
  let call := generate_numberplate i dvla_memory_tag date_created_str s in
  let tag := Py.upper dvla_memory_tag in
  (∀ e, Datetime.strptime date_created_str = Raise e → call = (Raise e, s)) ∧
  (Re.match_ Datetime.format_regex date_created_str = None →
   call = (Raise (Py.ValueError ("time data " +:+ Py.repr date_created_str +:+
                                 " does not match format '%d/%m/%Y'")), s) ∧
   (Spec.plain_text date_created_str = true →
    call = (Raise (Spec.date_format_error date_created_str), s))) ∧
  (∀ date_created, Datetime.strptime date_created_str = Ok date_created →
     (Spec.has_excluded_letter tag → call = (Raise Spec.excluded_letter_error, s)) ∧
     (¬ Spec.has_excluded_letter tag → Py.len tag ≠ 2 →
      call = (Raise Spec.tag_length_error, s)) ∧
     (¬ Spec.has_excluded_letter tag → Py.len tag = 2 →
      fst call ≠ Raise Spec.excluded_letter_error ∧
      fst call ≠ Raise Spec.tag_length_error) ∧
     generate_numberplate i "YQ" date_created_str s =
       (Raise Spec.excluded_letter_error, s)).
Proof.
  intros call tag. subst call tag. split_and!.
  - intros e He. by apply generate_numberplate_date_error.
  - intros Hno. split.
    + apply generate_numberplate_date_error. by apply strptime_no_match.
    + intros Hplain. apply generate_numberplate_date_error.
      by apply strptime_no_match_plain.
  - intros dt Hd. split_and!.
    + intros Hx. by eapply generate_numberplate_excluded_letter.
    + intros Hx Hlen. by eapply generate_numberplate_tag_length.
    + intros Hx Hlen.
      outcomes i dvla_memory_tag date_created_str s; cbn [fst];
        try done; try congruence.
    + eapply generate_numberplate_excluded_letter; [done |].
      exists "Q"%char. split; vm_compute; set_solver.
Qed.

(** The tests with the dates 00/11/2017 and 03-11-2017, and the tag YQ. *)
Lemma generate_numberplate_validation_order_witness :
  generate_numberplate 5 "AB" "00/11/2017" (Fixtures.generator ∅) =
    (Raise (Py.ValueError "time data '00/11/2017' does not match format '%d/%m/%Y'"),
     Fixtures.generator ∅) ∧
  generate_numberplate 5 "YQ" "03/11/2017" (Fixtures.generator ∅) =
    (Raise (Py.ValueError "I, Q, Z not allowed in UK number plates"), Fixtures.generator ∅).
Proof.
  destruct (generate_numberplate_validation_order 5 "AB" "00/11/2017" (Fixtures.generator ∅))
    as (_ & Hdate & _).
  destruct (generate_numberplate_validation_order 5 "AB" "03/11/2017" (Fixtures.generator ∅))
    as (_ & _ & Htag).
  split.
  - apply Hdate; vm_compute; reflexivity.
  - eapply Htag. vm_compute. reflexivity.
Defined.

(** ** Tags that are not letters *)

(** The tag ab has two characters and no I, Q or Z
    after uppercasing, and the plate minted for it embeds AB, not the tag
    as given; the tag 45 with every suffix taken for 4567 mints nothing. *)
Lemma generate_numberplate_tag_not_verbatim :
  Py.len "ab" = 2 ∧
  Py.any ((λ invalid_char, Py.contains invalid_char (Py.upper "ab")) <$> ["I"; "Q"; "Z"]) =
    false ∧
  fst (generate_numberplate 5 "ab" "03/11/2017" (Fixtures.generator ∅)) = Ok "AB67 AAF" ∧
  Py.startswith "ab" "AB67 AAF" = false ∧
  fst (generate_numberplate 5 "45" "03/11/2017"
         (Fixtures.generator (Fixtures.all_taken "4567"))) = Raise Spec.exhaustion_error.
Proof.
  split_and!; [vm_compute; reflexivity .. |].
  rewrite (generate_numberplate_valid 5 "45" "03/11/2017"
             (Fixtures.generator (Fixtures.all_taken "4567"))
             (Datetime.mk_datetime 2017 11 3)).
  - change (Py.upper "45" +:+ generate_age_identifier (Datetime.mk_datetime 2017 11 3))
      with "4567".
    destruct (generate_available_random_string_cases "4567" (Fixtures.all_taken "4567") 5
                (Fixtures.generator (Fixtures.all_taken "4567")) eq_refl)
      as [(c & Hrun & Hfirst & Hfree) | [Hrun _]]; rewrite Hrun; [| done].
    destruct Hfree. apply all_taken_spec.
    destruct Hfirst as (k & _ & Hc & _). apply list_elem_of_lookup. eauto.
  - vm_compute. reflexivity.
  - intros (c & Hc & Hin). vm_compute in Hin. set_solver.
  - vm_compute. reflexivity.
Qed.



(** ** Construction *)

(** The test [save_file_path[-4:] != ".csv"] accepts exactly the paths
    that end in [.csv]. *)
Lemma slice_csv_iff (path : string) :
  Py.slice_from (-4) path = ".csv" ↔ Spec.ends_in_csv path.
Proof.
  split.
  - intros H. unfold Py.slice_from in H.
    destruct (drop_chars_split
                (Z.to_nat (if (-4 <? 0)%Z then Z.max (Z.of_nat (Py.len path) + -4) 0
                           else Z.min (-4) (Z.of_nat (Py.len path)))) path) as [stem Hstem].
    exists stem. by rewrite H in Hstem.
  - intros [stem ->]. apply (slice_from_suffix 4); [lia | done].
Qed.

(** What a construction does, path by path. *)
Lemma new_cases (path : string) (w : OS.world) :
  new path w =
    if bool_decide (Py.slice_from (-4) path = ".csv")
    then
      match OS.files w !! path with
      | Some (OS.RegularFile true _ records) =>
          (Ok (mk_instance (Some path) (Some (list_to_set (collect_rows records [])))),
           OS.print ("successfully loaded " +:+
                     Py.str (Z.of_nat (length (collect_rows records []))) +:+
                     " rows from '" +:+ path +:+ "'") w)
      | Some (OS.RegularFile false _ _) =>
          (Ok (mk_instance (Some path) None),
           OS.print "Failed to load existing generated plates due to {err}" w)
      | _ => (Ok (mk_instance (Some path) (Some ∅)), w)
      end
    else (Raise Spec.extension_error, w).
Proof.
  unfold new, __init__, bind at 1, set_save_file_path.
  cbn [self world save_file_path existing_generated_plates].
  case_bool_decide as Hext; cbn [negb]; [| done].
  unfold try_except_IOError, bind at 1, get_save_file_path. cbn [self save_file_path].
  unfold bind at 1, isfile, OS.isfile. cbn [world].
  destruct (OS.files w !! path) as [[| r wr records] |] eqn:Hfile; try done.
  unfold bind at 1, load_from_csv, bind at 1, get_save_file_path. cbn [self save_file_path].
  unfold bind at 1, read_records, OS.read_records. cbn [world]. rewrite Hfile.
  destruct r; [| done].
  unfold bind, get_save_file_path, print, ret, set_existing_generated_plates.
  cbn [self save_file_path world]. done.
Qed.

(** The rows loop keeps the first field of every row that has one. *)
Lemma collect_rows_omap (reader : list (list string)) (csv_rows : list string) :
  collect_rows reader csv_rows = csv_rows ++ omap head reader.
Proof.
  revert csv_rows. induction reader as [|row reader IH]; intros csv_rows.
  - by rewrite app_nil_r.
  - destruct row as [|field row]; cbn [collect_rows omap list_omap head]; rewrite IH; [done |].
    by rewrite <- app_assoc.
Qed.

Lemma elem_of_collect_rows (reader : list (list string)) (x : string) :
  x ∈ collect_rows reader [] ↔ ∃ row, row ∈ reader ∧ head row = Some x.
Proof. rewrite collect_rows_omap, app_nil_l. apply list_elem_of_omap. Qed.

Lemma length_collect_rows (reader : list (list string)) :
  length (collect_rows reader []) ≤ length reader.
Proof.
  rewrite collect_rows_omap, app_nil_l.
  induction reader as [|[|field row] reader IH]; cbn [omap list_omap head length]; lia.
Qed.

(** [set(xs)] has at most as many elements as [xs]. *)
Lemma size_list_to_set_le (xs : list string) :
  size (list_to_set xs : gset string) ≤ length xs.
Proof.
  induction xs as [|x xs IH]; cbn [list_to_set length].
  - by rewrite size_empty.
  - rewrite size_union_alt, size_singleton.
    pose proof (subseteq_size (list_to_set xs ∖ {[x]}) (list_to_set xs : gset string)
                  ltac:(set_solver)).
    lia.
Qed.



(** A construction never creates, empties or changes a file, whatever
    the path and the world; it prints at most one line. *)
Theorem new_never_writes (path : string) (w : OS.world) :
  OS.files (snd (new path w)) = OS.files w ∧
  ∃ lines, OS.stdout (snd (new path w)) = OS.stdout w ++ lines ∧ length lines ≤ 1.
Proof.
  rewrite new_cases. case_bool_decide.
  - destruct (OS.files w !! path) as [[| [] wr records] |]; cbn [snd OS.print OS.files OS.stdout];
      (split; [done |]);
      first [ by (eexists [_]; split; [reflexivity | cbn [length]; lia])
            | by (exists []; split; [by rewrite app_nil_r | cbn [length]; lia]) ].
  - split; [done |]. exists []. split; [by rewrite app_nil_r | cbn [length]; lia].
Qed.

(** When the path ends in [.csv] and holds a readable file, the new
    instance tracks exactly the first fields of the rows that have one;
    rows without a field are skipped and repeated plates count once. *)
Theorem new_loads_readable_file
    (path : string) (w : OS.world) (wr : bool) (records : list (list string)) :
  Spec.ends_in_csv path →
  OS.files w !! path = Some (OS.RegularFile true wr records) →
  ∃ plates w',
    new path w = (Ok (mk_instance (Some path) (Some plates)), w') ∧
    (∀ x, x ∈ plates ↔ ∃ row, row ∈ records ∧ head row = Some x) ∧
    size plates ≤ length records ∧
    OS.stdout w' = OS.stdout w ++
      ["successfully loaded " +:+ Py.str (Z.of_nat (length (omap head records))) +:+
       " rows from '" +:+ path +:+ "'"].
Proof.
  intros Hext%slice_csv_iff Hfile. rewrite new_cases, bool_decide_eq_true_2, Hfile by done.
  eexists _, _. split_and!; [done | | |].
  - intros x. by rewrite elem_of_list_to_set, elem_of_collect_rows.
  - etrans; [apply size_list_to_set_le | apply length_collect_rows].
  - cbn [OS.print OS.stdout]. by rewrite collect_rows_omap, app_nil_l.
Qed.

(** A file with a repeated plate, a row without fields and a row of two
    fields. *)
Lemma new_loads_readable_file_witness :
  ∃ plates w',
    new "test.csv"
        (Fixtures.stored_world [["YR67 AAF"]; []; ["GH21 BFB"; "2021"]; ["YR67 AAF"]]) =
      (Ok (mk_instance (Some "test.csv") (Some plates)), w') ∧
    "GH21 BFB" ∈ plates ∧ "2021" ∉ plates ∧ size plates ≤ 4.
Proof.
  destruct (new_loads_readable_file "test.csv"
              (Fixtures.stored_world [["YR67 AAF"]; []; ["GH21 BFB"; "2021"]; ["YR67 AAF"]])
              true [["YR67 AAF"]; []; ["GH21 BFB"; "2021"]; ["YR67 AAF"]])
    as (plates & w' & Hnew & Hin & Hsize & _).
  - apply slice_csv_iff. vm_compute. reflexivity.
  - reflexivity.
  - exists plates, w'. split_and!; [done | | | done].
    + apply Hin. exists ["GH21 BFB"; "2021"]. split; [set_solver | done].
    + rewrite Hin. intros (row & Hrow & Hhead).
      repeat (apply elem_of_cons in Hrow as [-> | Hrow]); try discriminate.
      by apply elem_of_nil in Hrow.
Defined.

(** When the path ends in [.csv] and holds a file that cannot be read,
    the error is caught and one fixed line is printed, in which the
    placeholder [{err}] stands as written; the instance comes back
    without the attribute of the Tracked Set, so that minting with valid
    arguments raises [AttributeError] and changes nothing. *)
Theorem new_unreadable_file
    (path : string) (w : OS.world) (wr : bool) (records : list (list string)) :
  Spec.ends_in_csv path →
  OS.files w !! path = Some (OS.RegularFile false wr records) →
  ∃ g w',
    new path w = (Ok g, w') ∧
    save_file_path g = Some path ∧
    existing_generated_plates g = None ∧
    OS.files w' = OS.files w ∧
    OS.stdout w' = OS.stdout w ++ ["Failed to load existing generated plates due to {err}"] ∧
    ∀ i dvla_memory_tag date_created_str date_created,
      Datetime.strptime date_created_str = Ok date_created →
      ¬ Spec.has_excluded_letter (Py.upper dvla_memory_tag) →
      Py.len (Py.upper dvla_memory_tag) = 2 →
      generate_numberplate i dvla_memory_tag date_created_str (mk_state g w') =
        (Raise (no_attribute "existing_generated_plates"), mk_state g w').
Proof.
  intros Hext%slice_csv_iff Hfile. rewrite new_cases, bool_decide_eq_true_2, Hfile by done.
  eexists _, _. split_and!; try done.
  intros i tag date dt Hd Hx Hlen.
  rewrite (generate_numberplate_valid i tag date _ dt Hd Hx Hlen).
  by rewrite generate_available_random_string_no_attribute.
Qed.

(** The file [plates.csv] that cannot be read. *)
Lemma new_unreadable_file_witness :
  fst (new "plates.csv" Fixtures.unreadable_world) =
    Ok (mk_instance (Some "plates.csv") None) ∧
  ∃ g w',
    new "plates.csv" Fixtures.unreadable_world = (Ok g, w') ∧
    fst (generate_numberplate 5 "YR" "03/11/2017" (mk_state g w')) =
      Raise (Py.AttributeError
               "'UKNumberPlateGenerator' object has no attribute 'existing_generated_plates'").
Proof.
  split; [vm_compute; reflexivity |].
  destruct (new_unreadable_file "plates.csv" Fixtures.unreadable_world true [["YR67 AAF"]])
    as (g & w' & Hnew & _ & _ & _ & _ & Hmint).
  - apply slice_csv_iff. vm_compute. reflexivity.
  - reflexivity.
  - exists g, w'. split; [done |].
    rewrite (Hmint 5 "YR" "03/11/2017" (Datetime.mk_datetime 2017 11 3)); [done | | |].
    + vm_compute. reflexivity.
    + intros (c & Hc & Hin). vm_compute in Hin. set_solver.
    + reflexivity.
Defined.

(** ** Loading and saving *)

(** [load_from_csv] reads the file of the instance; what it reads is
    returned, not stored. *)
Lemma load_from_csv_cases (s : state) (path : string) :
  save_file_path (self s) = Some path →
  load_from_csv s =
    match OS.read_records path (world s) with
    | Ok records =>
        (Ok (list_to_set (collect_rows records [])),
         mk_state (self s)
           (OS.print ("successfully loaded " +:+
                      Py.str (Z.of_nat (length (collect_rows records []))) +:+
                      " rows from '" +:+ path +:+ "'") (world s)))
    | Raise e => (Raise e, s)
    end.
Proof.
  intros Hpath.
  unfold load_from_csv, bind at 1, get_save_file_path. rewrite Hpath.
  unfold bind at 1, read_records.
  destruct (OS.read_records path (world s)) as [records | e]; [| done].
  unfold bind, get_save_file_path, print, ret. by rewrite Hpath.
Qed.

(** Reading fails unless the path holds a readable regular file. *)
Lemma read_records_cases (path : string) (w : OS.world) :
  (∃ wr records, OS.files w !! path = Some (OS.RegularFile true wr records) ∧
                 OS.read_records path w = Ok records)
  ∨ ((∀ wr records, OS.files w !! path ≠ Some (OS.RegularFile true wr records)) ∧
     ∃ msg, OS.read_records path w = Raise (Py.OSError msg)).
Proof.
  unfold OS.read_records, OS.errno.
  destruct (OS.files w !! path) as [[| [] wr records] |]; eauto 6.
Qed.

(** Called on its own, [load_from_csv] returns the set of the first
    fields of the rows that have one, and leaves the instance and the files
    as they were: the Tracked Set of the instance is not replaced.  When
    the file is missing, is a directory or cannot be read, the error of
    [open] reaches the caller and nothing has changed. *)
Theorem load_from_csv_returns_first_fields (s : state) (path : string) :
  save_file_path (self s) = Some path →
  (∀ wr records,
     OS.files (world s) !! path = Some (OS.RegularFile true wr records) →
     ∃ plates s',
       load_from_csv s = (Ok plates, s') ∧
       (∀ x, x ∈ plates ↔ ∃ row, row ∈ records ∧ head row = Some x) ∧
       self s' = self s ∧
       OS.files (world s') = OS.files (world s)) ∧
  ((∀ wr records,
      OS.files (world s) !! path ≠ Some (OS.RegularFile true wr records)) →
   ∃ msg, load_from_csv s = (Raise (Py.OSError msg), s)).
Proof.
  intros Hpath. rewrite (load_from_csv_cases s path Hpath). split.
  - intros wr records Hfile. unfold OS.read_records. rewrite Hfile.
    eexists _, _. split_and!; try done.
    intros x. by rewrite elem_of_list_to_set, elem_of_collect_rows.
  - intros Hno.
    destruct (read_records_cases path (world s))
      as [(wr & records & Hfile & _) | [_ [msg ->]]]; [| eauto].
    by destruct (Hno wr records).
Qed.

(** The test of [load_from_csv]: three rows, three plates; and a call on
    a generator whose file does not exist. *)
Lemma load_from_csv_returns_first_fields_witness :
  (∃ plates s',
     load_from_csv
       (mk_state (mk_instance (Some "test.csv") (Some ∅))
          (Fixtures.stored_world [["YP10 UNK"]; ["YP10 SHU"]; ["YP10 EHW"]])) =
       (Ok plates, s') ∧
     "YP10 SHU" ∈ plates ∧
     existing_generated_plates (self s') = Some ∅) ∧
  ∃ msg, load_from_csv (Fixtures.generator ∅) = (Raise (Py.OSError msg), Fixtures.generator ∅).
Proof.
  split.
  - destruct (load_from_csv_returns_first_fields
                (mk_state (mk_instance (Some "test.csv") (Some ∅))
                   (Fixtures.stored_world [["YP10 UNK"]; ["YP10 SHU"]; ["YP10 EHW"]]))
                "test.csv" eq_refl) as [Hload _].
    destruct (Hload true [["YP10 UNK"]; ["YP10 SHU"]; ["YP10 EHW"]] eq_refl)
      as (plates & s' & Hrun & Hin & Hself & _).
    exists plates, s'. split_and!; [done | | by rewrite Hself].
    apply Hin. exists ["YP10 SHU"]. split; [set_solver | done].
  - destruct (load_from_csv_returns_first_fields (Fixtures.generator ∅) "test.csv" eq_refl)
      as [_ Hfail].
    apply Hfail. intros wr records Hfile. vm_compute in Hfile. discriminate.
Defined.

(** The rows loop of [save_to_csv] appends one record per text. *)
Lemma for_each_writerow (path : string) (xs : list string) (s : state) :
  for_each xs (λ string, writerow path [string]) s =
    (Ok (), mk_state (self s) (foldl (λ w x, OS.writerow path [x] w) (world s) xs)).
Proof.
  revert s. induction xs as [|x xs IH]; intros s.
  - by destruct s.
  - cbn [for_each foldl]. unfold bind, writerow at 1. by rewrite IH.
Qed.

Lemma writerows_file (path : string) (xs : list string) (w : OS.world)
    (r wr : bool) (records : list (list string)) :
  OS.files w !! path = Some (OS.RegularFile r wr records) →
  foldl (λ w x, OS.writerow path [x] w) w xs =
    OS.mk_world
      (<[path := OS.RegularFile r wr (records ++ ((λ x, [x]) <$> xs))]> (OS.files w))
      (OS.stdout w).
Proof.
  revert w records. induction xs as [|x xs IH]; intros w records Hfile.
  - cbn [foldl fmap list_fmap]. rewrite app_nil_r, insert_id by done. by destruct w.
  - cbn [foldl]. rewrite (IH _ (records ++ [[x]])).
    + unfold OS.writerow. rewrite Hfile. cbn [OS.files OS.stdout].
      by rewrite insert_insert_eq, <- app_assoc.
    + unfold OS.writerow. rewrite Hfile. cbn [OS.files]. apply lookup_insert_eq.
Qed.

Section SaveProperties.

Variable set_iter : gset string → list string.

(** Opening for writing fails on a directory and on a file that may not
    be written; nothing has changed then. *)
Lemma save_to_csv_open_fails (s : state) (path : string) :
  save_file_path (self s) = Some path →
  (OS.files (world s) !! path = Some OS.Directory ∨
   ∃ r records, OS.files (world s) !! path = Some (OS.RegularFile r false records)) →
  ∃ msg, save_to_csv set_iter s = (Raise (Py.OSError msg), s).
Proof.
  intros Hpath Hfile. destruct s as [g w]. cbn [self world] in *.
  unfold save_to_csv, bind at 1, get_save_file_path. cbn [self]. rewrite Hpath.
  unfold bind at 1, open_w, OS.open_w, OS.errno. cbn [self world].
  destruct Hfile as [Hf | (r & records & Hf)]; rewrite Hf; [| destruct r];
    eexists; reflexivity.
Qed.

(** Past a successful [open], the file holds one record per element of
    the Tracked Set, in the order of iteration, and nothing else. *)
Lemma save_to_csv_writes (s : state) (path : string) (plates : gset string)
    (r : bool) :
  save_file_path (self s) = Some path →
  Spec.tracks (self s) plates →
  (OS.files (world s) !! path = None ∧ r = true ∨
   ∃ records, OS.files (world s) !! path = Some (OS.RegularFile r true records)) →
  save_to_csv set_iter s =
    (Ok (),
     mk_state (self s)
       (OS.mk_world
          (<[path := OS.RegularFile r true ((λ x, [x]) <$> set_iter plates)]>
             (OS.files (world s)))
          (OS.stdout (world s) ++
           ["Successfully saved " +:+ Py.str (Z.of_nat (size plates)) +:+
            " existing generated plates to '" +:+ path +:+ "'"]))).
Proof.
  intros Hpath Hs Hfile.
  unfold save_to_csv, bind at 1, get_save_file_path. rewrite Hpath.
  unfold bind at 1, open_w, OS.open_w.
  assert (∃ w1, (match OS.files (world s) !! path with
                 | None => (Ok (), OS.mk_world (<[path := OS.RegularFile true true []]>
                                                  (OS.files (world s))) (OS.stdout (world s)))
                 | Some OS.Directory => (Raise (OS.errno "21" "Is a directory" path), world s)
                 | Some (OS.RegularFile _ false _) =>
                     (Raise (OS.errno "13" "Permission denied" path), world s)
                 | Some (OS.RegularFile r' true _) =>
                     (Ok (), OS.mk_world (<[path := OS.RegularFile r' true []]>
                                            (OS.files (world s))) (OS.stdout (world s)))
                 end) = (Ok (), w1) ∧
                w1 = OS.mk_world (<[path := OS.RegularFile r true []]> (OS.files (world s)))
                       (OS.stdout (world s))) as (w1 & -> & ->).
  { destruct Hfile as [[-> ->] | (records & ->)]; eauto. }
  unfold bind at 1, get_existing_generated_plates. cbn [self]. rewrite Hs.
  unfold bind at 1. rewrite for_each_writerow. cbn [self world].
  rewrite (writerows_file path _ _ r true []);
    [| cbn [OS.files]; apply lookup_insert_eq].
  unfold print, OS.print. cbn [self world OS.files OS.stdout].
  by rewrite insert_insert_eq, app_nil_l.
Qed.

(** Without the attribute of the Tracked Set the call raises after the
    file was opened for writing: the file is left empty. *)
Lemma save_to_csv_no_attribute (s : state) (path : string) (r : bool) :
  save_file_path (self s) = Some path →
  existing_generated_plates (self s) = None →
  (OS.files (world s) !! path = None ∧ r = true ∨
   ∃ records, OS.files (world s) !! path = Some (OS.RegularFile r true records)) →
  save_to_csv set_iter s =
    (Raise (no_attribute "existing_generated_plates"),
     mk_state (self s)
       (OS.mk_world (<[path := OS.RegularFile r true []]> (OS.files (world s)))
          (OS.stdout (world s)))).
Proof.
  intros Hpath Hs Hfile.
  unfold save_to_csv, bind at 1, get_save_file_path. rewrite Hpath.
  unfold bind at 1, open_w, OS.open_w.
  destruct Hfile as [[-> ->] | (records & ->)];
    unfold bind at 1, get_existing_generated_plates; cbn [self]; by rewrite Hs.
Qed.

(** The ways in which [save_to_csv] fails.  On a directory or a file
    that may not be written, the error of [open] reaches the caller and
    nothing has changed.  On an instance without the attribute of the
    Tracked Set, the file has been opened for writing before the
    attribute is read: the call raises [AttributeError] and the file is
    left empty. *)
Theorem save_to_csv_errors (s : state) (path : string) :
  save_file_path (self s) = Some path →
  ((OS.files (world s) !! path = Some OS.Directory ∨
    ∃ r records, OS.files (world s) !! path = Some (OS.RegularFile r false records)) →
   ∃ msg, save_to_csv set_iter s = (Raise (Py.OSError msg), s)) ∧
  (∀ r records,
     existing_generated_plates (self s) = None →
     OS.files (world s) !! path = Some (OS.RegularFile r true records) →
     ∃ s', save_to_csv set_iter s =
             (Raise (no_attribute "existing_generated_plates"), s') ∧
           self s' = self s ∧
           OS.files (world s') !! path = Some (OS.RegularFile r true [])).
Proof.
  intros Hpath. split.
  - by apply save_to_csv_open_fails.
  - intros r records Hs Hfile.
    rewrite (save_to_csv_no_attribute s path r Hpath Hs) by eauto.
    eexists. split_and!; [done | done |]. cbn [world OS.files]. apply lookup_insert_eq.
Qed.

(** A save changes no file but the one of the instance, and never the
    attributes of the instance, whether it returns or raises. *)
Theorem save_to_csv_frame (s : state) (path other : string) :
  save_file_path (self s) = Some path →
  other ≠ path →
  OS.files (world (snd (save_to_csv set_iter s))) !! other = OS.files (world s) !! other ∧
  self (snd (save_to_csv set_iter s)) = self s.
Proof.
  intros Hpath Hother.
  destruct (OS.files (world s) !! path) as [[| r [] records] |] eqn:Hfile.
  - destruct (save_to_csv_open_fails s path Hpath) as [msg ->]; eauto.
  - destruct (existing_generated_plates (self s)) as [plates |] eqn:Hs.
    + rewrite (save_to_csv_writes s path plates r Hpath Hs) by eauto.
      cbn [snd self world OS.files]. by rewrite lookup_insert_ne.
    + rewrite (save_to_csv_no_attribute s path r Hpath Hs) by eauto.
      cbn [snd self world OS.files]. by rewrite lookup_insert_ne.
  - destruct (save_to_csv_open_fails s path Hpath) as [msg ->]; eauto.
  - destruct (existing_generated_plates (self s)) as [plates |] eqn:Hs.
    + rewrite (save_to_csv_writes s path plates true Hpath Hs) by eauto.
      cbn [snd self world OS.files]. by rewrite lookup_insert_ne.
    + rewrite (save_to_csv_no_attribute s path true Hpath Hs) by eauto.
      cbn [snd self world OS.files]. by rewrite lookup_insert_ne.
Qed.

(** A file that cannot be read but may be written is emptied by the
    first save after the construction that failed to load it: the plates
    it held are lost. *)
Theorem new_unreadable_then_save_to_csv
    (path : string) (w : OS.world) (records : list (list string)) :
  Spec.ends_in_csv path →
  OS.files w !! path = Some (OS.RegularFile false true records) →
  ∃ g w' s',
    new path w = (Ok g, w') ∧
    save_to_csv set_iter (mk_state g w') =
      (Raise (no_attribute "existing_generated_plates"), s') ∧
    OS.files (world s') !! path = Some (OS.RegularFile false true []).
Proof.
  intros Hext%slice_csv_iff Hfile.
  rewrite new_cases, bool_decide_eq_true_2, Hfile by done.
  eexists _, _, _. split; [done |].
  rewrite (save_to_csv_no_attribute _ path false) by (cbn; eauto).
  split; [done |]. cbn [world OS.files OS.print]. apply lookup_insert_eq.
Qed.

(** Python iterates over a set in some order, each element once. *)
Hypothesis set_iter_once : ∀ plates, set_iter plates ≡ₚ elements plates.




End SaveProperties.

(** A file that may not be written: the save raises and the generator is
    as it was. *)
Lemma save_to_csv_errors_witness :
  ∃ msg,
    save_to_csv elements
      (Fixtures.generator_in {[ "YP10 UNK" ]}
         (Fixtures.world_with "test.csv" (OS.RegularFile true false [["YP10 SHU"]]))) =
    (Raise (Py.OSError msg),
     Fixtures.generator_in {[ "YP10 UNK" ]}
       (Fixtures.world_with "test.csv" (OS.RegularFile true false [["YP10 SHU"]]))).
Proof.
  apply (save_to_csv_errors elements
           (Fixtures.generator_in {[ "YP10 UNK" ]}
              (Fixtures.world_with "test.csv" (OS.RegularFile true false [["YP10 SHU"]])))
           "test.csv" eq_refl).
  right. by exists true, [["YP10 SHU"]].
Defined.

(** A save next to another file. *)
Lemma save_to_csv_frame_witness :
  OS.files (world (snd (save_to_csv elements
      (Fixtures.generator_in {[ "YP10 UNK" ]}
         (Fixtures.world_with "other.csv" (OS.RegularFile true true [["YA07 AAA"]]))))))
    !! "other.csv" = Some (OS.RegularFile true true [["YA07 AAA"]]).
Proof.
  destruct (save_to_csv_frame elements
              (Fixtures.generator_in {[ "YP10 UNK" ]}
                 (Fixtures.world_with "other.csv" (OS.RegularFile true true [["YA07 AAA"]])))
              "test.csv" "other.csv" eq_refl) as [Hfiles _].
  - discriminate.
  - rewrite Hfiles. reflexivity.
Defined.

(** The file [plates.csv] that cannot be read, after a construction and
    a save. *)
Lemma new_unreadable_then_save_to_csv_witness :
  OS.files Fixtures.unreadable_world !! "plates.csv" =
    Some (OS.RegularFile false true [["YR67 AAF"]]) ∧
  ∃ g w' s',
    new "plates.csv" Fixtures.unreadable_world = (Ok g, w') ∧
    save_to_csv elements (mk_state g w') =
      (Raise (no_attribute "existing_generated_plates"), s') ∧
    OS.files (world s') !! "plates.csv" = Some (OS.RegularFile false true []).
Proof.
  split; [reflexivity |].
  apply (new_unreadable_then_save_to_csv elements "plates.csv" Fixtures.unreadable_world
           [["YR67 AAF"]]).
  - apply slice_csv_iff. vm_compute. reflexivity.
  - reflexivity.
Defined.


(** ** Runs: the plates of one generator are pairwise distinct *)

(** One call on an instance that holds a Tracked Set: it raises and
    changes nothing, or returns a plate that was not tracked and is the
    one plate added. *)
Lemma generate_numberplate_step
    (i : nat) (dvla_memory_tag date_created_str : string) (s : state)
    (plates : gset string) :
  Spec.tracks (self s) plates →
  (∃ e, generate_numberplate i dvla_memory_tag date_created_str s = (Raise e, s))
  ∨ ∃ plate,
      plate ∉ plates ∧
      generate_numberplate i dvla_memory_tag date_created_str s =
        (Ok plate,
         mk_state (mk_instance (save_file_path (self s)) (Some (plates ∪ {[plate]})))
           (world s)).
Proof.
  intros Hs. unfold Spec.tracks in Hs.
  outcomes i dvla_memory_tag date_created_str s; eauto; try congruence.
  match goal with
  | H : Spec.tracks (self s) ?p |- _ =>
      unfold Spec.tracks in H; assert (p = plates) as -> by congruence
  end.
  right. eexists. split; [| reflexivity].
  match goal with H : ¬ Spec.taken _ _ _ |- _ => exact H end.
Qed.

(** Whatever the client asks for and in whatever order, and whichever
    calls fail in between, the plates that one generator returns are
    pairwise distinct and none was tracked before; the Tracked Set at the
    end is the one at the start with exactly the returned plates added;
    the path of the instance and the world are as they were. *)
Theorem mints_distinct (s s' : state) (minted : list string) (plates : gset string) :
  Run.mints s minted s' →
  Spec.tracks (self s) plates →
  NoDup minted ∧
  (∀ plate, plate ∈ minted → plate ∉ plates) ∧
  Spec.tracks (self s') (plates ∪ list_to_set minted) ∧
  save_file_path (self s') = save_file_path (self s) ∧
  world s' = world s.
Proof.
  intros Hrun. revert plates.
  induction Hrun as [s | s s1 s' i tag date plate minted Hcall Hrun IH
                       | s s1 s' i tag date e minted Hcall Hrun IH];
    intros plates Hs.
  - split_and!; [constructor | set_solver | | done | done].
    unfold Spec.tracks in *. rewrite Hs. f_equal. set_solver.
  - destruct (generate_numberplate_step i tag date s plates Hs)
      as [[e He] | (plate' & Hnew & Hok)]; [congruence |].
    rewrite Hok in Hcall. injection Hcall as -> <-.
    destruct (IH (plates ∪ {[plate]}) eq_refl) as (Hnodup & Hfresh & Htracks & Hpath & Hworld).
    split_and!; [| | | done | done].
    + constructor; [| done]. intros Hin. apply (Hfresh plate Hin). set_solver.
    + intros p [-> | Hin]%elem_of_cons; [done |].
      specialize (Hfresh p Hin). set_solver.
    + unfold Spec.tracks in *. rewrite Htracks. f_equal. set_solver.
  - destruct (generate_numberplate_step i tag date s plates Hs)
      as [[e' He] | (plate' & Hnew & Hok)]; [| congruence].
    rewrite He in Hcall. injection Hcall as _ <-. by apply IH.
Qed.

(** Two calls with the same arguments and the same start index. *)
Lemma mints_distinct_witness :
  Run.mints (Fixtures.generator ∅) ["YR67 AAF"; "YR67 AAG"]
    (Fixtures.generator (∅ ∪ {[ "YR67 AAF" ]} ∪ {[ "YR67 AAG" ]})) ∧
  NoDup ["YR67 AAF"; "YR67 AAG"].
Proof.
  assert (Run.mints (Fixtures.generator ∅) ["YR67 AAF"; "YR67 AAG"]
            (Fixtures.generator (∅ ∪ {[ "YR67 AAF" ]} ∪ {[ "YR67 AAG" ]}))) as Hrun.
  { apply (Run.mints_plate _ (Fixtures.generator (∅ ∪ {[ "YR67 AAF" ]})) _ 5
             "YR" "03/11/2017"); [vm_compute; reflexivity |].
    apply (Run.mints_plate _ (Fixtures.generator (∅ ∪ {[ "YR67 AAF" ]} ∪ {[ "YR67 AAG" ]}))
             _ 5 "YR" "03/11/2017"); [vm_compute; reflexivity |].
    apply Run.mints_nil. }
  split; [exact Hrun |].
  exact (proj1 (mints_distinct _ _ _ ∅ Hrun eq_refl)).
Defined.

(** ** The suffix table *)

(** [itertools.product(pool, repeat=n)] lists the sequences of [n]
    elements of [pool]. *)
Lemma elem_of_product {A} (pool : list A) (n : nat) (combo : list A) :
  combo ∈ product pool n ↔ length combo = n ∧ ∀ x, x ∈ combo → x ∈ pool.
Proof.
  revert combo. induction n as [|n IH]; intros combo; cbn [product].
  - rewrite list_elem_of_singleton. split.
    + intros ->. split; [done |]. by intros x ?%elem_of_nil.
    + intros [Hlen _]. by destruct combo.
  - rewrite list_elem_of_bind. split.
    + intros (x & (tl & -> & Htl)%list_elem_of_fmap & Hx).
      apply IH in Htl as [Hlen Hpool]. split; [by rewrite <- Hlen |].
      intros y [-> | Hy]%elem_of_cons; eauto.
    + intros [Hlen Hpool]. destruct combo as [|x tl]; [done |].
      exists x. split; [| apply Hpool; by left].
      apply list_elem_of_fmap. exists tl. split; [done |].
      apply IH. split; [by injection Hlen |]. intros y Hy. apply Hpool. by right.
Qed.

(** It lists none of them twice when the pool has no repetition. *)
Lemma NoDup_product {A} (pool : list A) (n : nat) :
  NoDup pool → NoDup (product pool n).
Proof.
  intros Hpool. induction n as [|n IH]; cbn [product].
  - apply NoDup_singleton.
  - apply NoDup_bind; [| | done].
    + intros x1 x2 combo _ _ (tl1 & -> & _)%list_elem_of_fmap (tl2 & Heq & _)%list_elem_of_fmap.
      by injection Heq.
    + intros x _. apply NoDup_fmap_2; [| done]. by intros tl1 tl2 [= ->].
Qed.

Lemma join_inj (cs1 cs2 : list ascii) : Py.join cs1 = Py.join cs2 → cs1 = cs2.
Proof.
  intros H. apply (f_equal String.list_ascii_of_string) in H.
  unfold Py.join in H. by rewrite !String.list_ascii_of_string_of_list_ascii in H.
Qed.

Lemma NoDup_allowed_plate_chars : NoDup allowed_plate_chars.
Proof.
  rewrite allowed_plate_chars_eq.
  apply (bool_decide_unpack (NoDup (Py.chars "ABCDEFGHJKLMNOPRSTUVWXY"))).
  vm_compute. exact I.
Qed.

Lemma allowed_plate_chars_not_excluded (c : ascii) :
  c ∈ allowed_plate_chars → c ∉ ["I"; "Q"; "Z"]%char.
Proof.
  rewrite allowed_plate_chars_eq. cbn [Py.chars String.list_ascii_of_string].
  intros Hc Hx.
  repeat (apply elem_of_cons in Hc as [-> | Hc];
          [repeat (apply elem_of_cons in Hx as [Hx | Hx]; [discriminate |]);
           by apply elem_of_nil in Hx |]).
  by apply elem_of_nil in Hc.
Qed.

Transparent all_possible_random_strings.

(** The suffix table lists, once each, the texts of three letters taken
    from the 23 letters that are left of the alphabet without I, Q and
    Z. *)
Lemma elem_of_all_possible_random_strings (c : string) :
  c ∈ all_possible_random_strings ↔
  ∃ x y z, c = String x (String y (String z EmptyString)) ∧
           x ∈ allowed_plate_chars ∧ y ∈ allowed_plate_chars ∧ z ∈ allowed_plate_chars.
Proof.
  unfold all_possible_random_strings. rewrite list_elem_of_fmap. split.
  - intros (combo & -> & [Hlen Hpool]%elem_of_product).
    destruct combo as [|x [|y [|z [|]]]]; try done.
    exists x, y, z. split; [done |]. split_and!; apply Hpool; set_solver.
  - intros (x & y & z & -> & Hx & Hy & Hz). exists [x; y; z]. split; [done |].
    apply elem_of_product. split; [done |]. set_solver.
Qed.

Lemma NoDup_all_possible_random_strings : NoDup all_possible_random_strings.
Proof.
  unfold all_possible_random_strings.
  apply NoDup_fmap_2_strong; [| apply NoDup_product, NoDup_allowed_plate_chars].
  intros cs1 cs2 _ _. apply join_inj.
Qed.

Opaque all_possible_random_strings.

(** ** The shape of a plate *)

Lemma chars_app (s t : string) : Py.chars (s +:+ t) = Py.chars s ++ Py.chars t.
Proof.
  induction s as [|c s IH]; cbn [String.append Py.chars String.list_ascii_of_string];
    [done |].
  unfold Py.chars in IH. by rewrite IH.
Qed.

Lemma len_chars (s : string) : length (Py.chars s) = Py.len s.
Proof. induction s as [|c s IH]; simpl; [done | by rewrite IH]. Qed.

Lemma elem_of_chars_drop_chars (n : nat) (s : string) (c : ascii) :
  c ∈ Py.chars (Py.drop_chars n s) → c ∈ Py.chars s.
Proof.
  destruct (drop_chars_split n s) as [pre Hpre]. intros Hc.
  rewrite Hpre, chars_app. apply elem_of_app. by right.
Qed.

Lemma len_drop_chars (n : nat) (s : string) :
  Py.len (Py.drop_chars n s) = Py.len s - n.
Proof.
  revert s. induction n as [|n IH]; intros [|c s]; simpl; try done; try lia.
Qed.

(** [s[-2:]] keeps the last two characters, or all of a shorter text. *)
Lemma len_slice_from_last_two (s : string) :
  Py.len (Py.slice_from (-2) s) = Py.len s `min` 2.
Proof. unfold Py.slice_from. cbn [Z.ltb Z.compare]. rewrite len_drop_chars. lia. Qed.

Lemma digit_char (d : Z) : (0 ≤ d < 10)%Z → Py.digit d ∈ Py.chars "0123456789".
Proof.
  intros Hd.
  assert (d = 0 ∨ d = 1 ∨ d = 2 ∨ d = 3 ∨ d = 4 ∨ d = 5 ∨ d = 6 ∨ d = 7 ∨ d = 8 ∨ d = 9)%Z
    as Hcases by lia.
  repeat (destruct Hcases as [-> | Hcases]; [vm_compute; set_solver |]).
  subst d. vm_compute. set_solver.
Qed.

Lemma str_digits_chars (fuel : nat) (n : Z) (acc : string) (c : ascii) :
  c ∈ Py.chars (Py.str_digits fuel n acc) →
  c ∈ Py.chars "0123456789" ∨ c ∈ Py.chars acc.
Proof.
  revert n acc. induction fuel as [|fuel IH]; intros n acc; cbn [Py.str_digits]; [by right |].
  pose proof (digit_char (n mod 10) (Z.mod_pos_bound n 10 ltac:(lia))) as Hdigit.
  destruct (n <? 10)%Z.
  - cbn [Py.chars String.list_ascii_of_string]. intros [-> | Hc]%elem_of_cons; [by left | by right].
  - intros [Hc | Hc]%IH; [by left |].
    cbn [Py.chars String.list_ascii_of_string] in Hc.
    apply elem_of_cons in Hc as [-> | Hc]; [by left | by right].
Qed.

(** The numeral of a natural number is a text of digits that is not
    empty. *)
Lemma str_digits_only (n : Z) (c : ascii) :
  (0 ≤ n)%Z → c ∈ Py.chars (Py.str n) → c ∈ Py.chars "0123456789".
Proof.
  intros Hn. unfold Py.str.
  replace (n <? 0)%Z with false by (symmetry; apply Z.ltb_ge; lia).
  intros [Hc | Hc]%str_digits_chars; [done |]. by apply elem_of_nil in Hc.
Qed.

Lemma len_str_pos (n : Z) : (0 ≤ n)%Z → 1 ≤ Py.len (Py.str n).
Proof.
  intros Hn. unfold Py.str.
  replace (n <? 0)%Z with false by (symmetry; apply Z.ltb_ge; lia).
  cbn [Py.str_digits]. destruct (n <? 10)%Z; [simpl; lia |].
  destruct (str_digits_acc (Z.to_nat (Z.log2 n)) (n / 10)
              (String (Py.digit (n mod 10)) EmptyString)) as [pre ->].
  rewrite len_app. simpl. lia.
Qed.

(** The constructor of dates returns valid dates only, and so does
    [strptime]. *)
Lemma date_valid (y m d : Z) (dt : Datetime.datetime) :
  Datetime.date y m d = Ok dt → Datetime.valid dt.
Proof.
  intros H. unfold Datetime.date in H.
  destruct ((y <? Datetime.MINYEAR)%Z || (Datetime.MAXYEAR <? y)%Z) eqn:Hy; [done |].
  destruct ((m <? 1)%Z || (12 <? m)%Z) eqn:Hm; [done |].
  destruct ((d <? 1)%Z || (Datetime.days_in_month y m <? d)%Z) eqn:Hd; [done |].
  injection H as <-. unfold Datetime.valid.
  cbn [Datetime.year Datetime.month Datetime.day].
  apply orb_false_iff in Hy as [?%Z.ltb_ge ?%Z.ltb_ge].
  apply orb_false_iff in Hm as [?%Z.ltb_ge ?%Z.ltb_ge].
  apply orb_false_iff in Hd as [?%Z.ltb_ge ?%Z.ltb_ge].
  lia.
Qed.

Lemma strptime_valid (data_string : string) (dt : Datetime.datetime) :
  Datetime.strptime data_string = Ok dt → Datetime.valid dt.
Proof.
  unfold Datetime.strptime.
  destruct (Re.match_ _ _) as [f |]; [| done].
  destruct (negb _); [done |].
  destruct (Re.group "Y" _) as [Y |]; [| done].
  destruct (Re.group "m" _) as [m |]; [| done].
  destruct (Re.group "d" _) as [d |]; [| done].
  apply date_valid.
Qed.

(** The age identifier of a valid date is one or two digits. *)
Lemma generate_age_identifier_digits (dt : Datetime.datetime) :
  Datetime.valid dt →
  (∀ c, c ∈ Py.chars (generate_age_identifier dt) → c ∈ Py.chars "0123456789") ∧
  1 ≤ Py.len (generate_age_identifier dt) ≤ 2.
Proof.
  intros ([Hy _] & _). unfold Datetime.MINYEAR in Hy. unfold generate_age_identifier.
  destruct (_ && _); (split;
    [ intros c Hc%elem_of_chars_drop_chars; revert Hc; apply str_digits_only; lia
    | rewrite len_slice_from_last_two;
      match goal with |- context [Py.str ?n] =>
        pose proof (len_str_pos n ltac:(lia)) end; lia ]).
Qed.

Lemma digit_not_excluded (c : ascii) :
  c ∈ Py.chars "0123456789" → c ∉ ["I"; "Q"; "Z"]%char.
Proof.
  cbn [Py.chars String.list_ascii_of_string]. intros Hc Hx.
  repeat (apply elem_of_cons in Hc as [-> | Hc];
          [repeat (apply elem_of_cons in Hx as [Hx | Hx]; [discriminate |]);
           by apply elem_of_nil in Hx |]).
  by apply elem_of_nil in Hc.
Qed.

(** The suffix table has 23 * 23 * 23 entries, pairwise distinct: the
    texts of three letters from the alphabet without I, Q and Z. *)
Theorem all_possible_random_strings_spec :
  length all_possible_random_strings = 23 * 23 * 23 ∧
  NoDup all_possible_random_strings ∧
  ∀ c, c ∈ all_possible_random_strings ↔
       Py.len c = 3 ∧ ∀ x, x ∈ Py.chars c → x ∈ Py.chars "ABCDEFGHJKLMNOPRSTUVWXY".
Proof.
  split_and!.
  - rewrite all_possible_random_strings_length. vm_compute. reflexivity.
  - apply NoDup_all_possible_random_strings.
  - intros c. rewrite elem_of_all_possible_random_strings, allowed_plate_chars_eq. split.
    + intros (x & y & z & -> & Hx & Hy & Hz). split; [done |].
      cbn [Py.chars String.list_ascii_of_string]. set_solver.
    + intros [Hlen Hchars]. destruct c as [|x [|y [|z [|]]]]; try done.
      exists x, y, z. split; [done |].
      cbn [Py.chars String.list_ascii_of_string] in Hchars.
      split_and!; apply Hchars; set_solver.
Qed.

(** Every plate that is returned is the uppercased tag of two
    characters, the age identifier of the parsed date, which is one or two
    digits, a blank, and three letters of the suffix table.  It has seven
    or eight characters, eight from the year 10 on, and none of them is I,
    Q or Z. *)
Theorem generate_numberplate_plate_format
    (i : nat) (dvla_memory_tag date_created_str : string) (s : state) (plate : string) :
  fst (generate_numberplate i dvla_memory_tag date_created_str s) = Ok plate →
  ∃ date_created random_string,
    Datetime.strptime date_created_str = Ok date_created ∧
    Datetime.valid date_created ∧
    plate = (Py.upper dvla_memory_tag +:+ generate_age_identifier date_created)
            +:+ " " +:+ random_string ∧
    Py.len (Py.upper dvla_memory_tag) = 2 ∧
    (∀ c, c ∈ Py.chars (generate_age_identifier date_created) →
          c ∈ Py.chars "0123456789") ∧
    random_string ∈ all_possible_random_strings ∧
    Py.len random_string = 3 ∧
    (∀ c, c ∈ Py.chars plate → c ∉ ["I"; "Q"; "Z"]%char) ∧
    7 ≤ Py.len plate ≤ 8 ∧
    ((10 ≤ Datetime.year date_created)%Z → Py.len plate = 8).
Proof.
  intros Hok.
  pose proof (generate_numberplate_outcomes i dvla_memory_tag date_created_str s) as H.
  cbn zeta in H.
  destruct H as [(e & _ & Hcall) | (dt & Hd & [(_ & Hcall) | (Hx & [(_ & Hcall) |
    (Hlen & [(_ & Hcall) | (plates & Hs & [(Hcall & _) |
      (c & Hrun & Hfirst & Hfree & Hcall)])])])])];
    rewrite Hcall in Hok; cbn [fst] in Hok; try discriminate.
  injection Hok as <-. clear Hcall.
  pose proof (strptime_valid _ _ Hd) as Hvalid.
  destruct (generate_age_identifier_digits dt Hvalid) as [Hdigits Hage].
  assert (c ∈ all_possible_random_strings) as Hc.
  { destruct Hfirst as (k & _ & Hk & _). apply list_elem_of_lookup. eauto. }
  pose proof Hc as (x & y & z & -> & Hx' & Hy' & Hz')%elem_of_all_possible_random_strings.
  exists dt, (String x (String y (String z EmptyString))).
  split_and!; try done.
  - intros ch. rewrite !chars_app, !elem_of_app.
    intros [[Hch | Hch] | Hch] Hex.
    + apply Hx. by exists ch.
    + by apply (digit_not_excluded ch); [apply Hdigits |].
    + cbn [Py.chars String.list_ascii_of_string String.append] in Hch.
      apply elem_of_cons in Hch as [-> | Hch].
      { repeat (apply elem_of_cons in Hex as [Hex | Hex]; [discriminate |]).
        by apply elem_of_nil in Hex. }
      assert (ch ∈ allowed_plate_chars) as Hallowed by set_solver.
      exact (allowed_plate_chars_not_excluded ch Hallowed Hex).
  - rewrite !len_app, Hlen. simpl. lia.
  - rewrite !len_app, Hlen. simpl. lia.
  - intros Hyear. rewrite !len_app, Hlen.
    rewrite (generate_age_identifier_from_year_10 dt Hyear). by case_bool_decide.
Qed.

(** The first end-to-end test. *)
Lemma generate_numberplate_plate_format_witness :
  ∃ date_created random_string,
    "YR67 AAF" = ("YR" +:+ generate_age_identifier date_created) +:+ " " +:+ random_string ∧
    random_string ∈ all_possible_random_strings ∧
    Py.len "YR67 AAF" = 8.
Proof.
  destruct (generate_numberplate_plate_format 5 "YR" "03/11/2017" (Fixtures.generator ∅)
              "YR67 AAF")
    as (dt & c & _ & _ & Hplate & _ & _ & Hc & _).
  - vm_compute. reflexivity.
  - exists dt, c. split_and!; [exact Hplate | exact Hc | reflexivity].
Defined.

(** ** The age identifier, from the year 10 on *)

Lemma last_two_digits_century (n : Z) :
  Spec.last_two_digits (n + 100) = Spec.last_two_digits n.
Proof.
  unfold Spec.last_two_digits.
  replace ((n + 100) / 10)%Z with (n / 10 + 10)%Z
    by (symmetry; apply (Z.div_add n 10 10); lia).
  replace ((n / 10 + 10) mod 10)%Z with (n / 10 mod 10)%Z
    by (symmetry; apply (Z_mod_plus_full (n / 10) 1 10)).
  replace ((n + 100) mod 10)%Z with (n mod 10)%Z
    by (symmetry; apply (Z_mod_plus_full n 10 10)).
  done.
Qed.

(** For a valid date, except in March to August of the years 1 to 9,
    the age identifier has exactly two digits: the tens and units of the
    year in March to August, and of the year plus 50 in the other months.
    It does not tell centuries apart: the same day a hundred years later
    gets the same identifier. *)
Theorem generate_age_identifier_two_digits (date_created later : Datetime.datetime) :
  Datetime.valid date_created →
  (10 ≤ Datetime.year date_created)%Z ∨ ¬ (3 ≤ Datetime.month date_created ≤ 8)%Z →
  generate_age_identifier date_created =
    Spec.last_two_digits
      (if bool_decide (3 ≤ Datetime.month date_created ≤ 8)%Z
       then Datetime.year date_created else Datetime.year date_created + 50) ∧
  Py.len (generate_age_identifier date_created) = 2 ∧
  (Datetime.year later = (Datetime.year date_created + 100)%Z →
   Datetime.month later = Datetime.month date_created →
   generate_age_identifier later = generate_age_identifier date_created).
Proof.
  intros Hvalid Hcase.
  assert (∀ dt, Datetime.valid dt →
            (10 ≤ Datetime.year dt)%Z ∨ ¬ (3 ≤ Datetime.month dt ≤ 8)%Z →
            generate_age_identifier dt =
              Spec.last_two_digits
                (if bool_decide (3 ≤ Datetime.month dt ≤ 8)%Z
                 then Datetime.year dt else Datetime.year dt + 50)) as Hcode.
  { intros dt Hv [Hy | Hm].
    - rewrite (generate_age_identifier_from_year_10 dt Hy). by case_bool_decide.
    - rewrite bool_decide_eq_false_2 by done.
      by apply generate_age_identifier_other_months. }
  split_and!.
  - by apply Hcode.
  - by rewrite Hcode.
  - intros Hyear Hmonth.
    unfold generate_age_identifier at 1. rewrite Hyear, Hmonth.
    pose proof Hvalid as ([Hy _] & _). unfold Datetime.MINYEAR in Hy.
    rewrite Hcode by done.
    destruct ((3 <=? Datetime.month date_created)%Z && (Datetime.month date_created <=? 8)%Z)
      eqn:Hm.
    + apply andb_true_iff in Hm as [?%Z.leb_le ?%Z.leb_le].
      rewrite bool_decide_eq_true_2 by lia.
      destruct Hcase as [Hy10 | Hm']; [| lia].
      rewrite slice_str_last_two_digits by lia. apply last_two_digits_century.
    + apply andb_false_iff in Hm.
      rewrite bool_decide_eq_false_2
        by (intros [?%Z.leb_le ?%Z.leb_le]; destruct Hm; congruence).
      rewrite slice_str_last_two_digits by lia.
      replace (Datetime.year date_created + 100 + 50)%Z
        with (Datetime.year date_created + 50 + 100)%Z by lia.
      apply last_two_digits_century.
Qed.

(** The dates of the tests, and 25 September 2101. *)
Lemma generate_age_identifier_two_digits_witness :
  generate_age_identifier (Datetime.mk_datetime 2001 9 25) = "51" ∧
  generate_age_identifier (Datetime.mk_datetime 2101 9 25) =
    generate_age_identifier (Datetime.mk_datetime 2001 9 25).
Proof.
  destruct (generate_age_identifier_two_digits (Datetime.mk_datetime 2001 9 25)
              (Datetime.mk_datetime 2101 9 25))
    as (Hcode & _ & Hlater).
  - vm_compute. split_and!; congruence.
  - left. vm_compute. congruence.
  - split; [exact Hcode | by apply Hlater].
Defined.

(** ** The search for a suffix, on any instance and from any index *)

(** The search changes nothing, on any instance and from any start
    index, also one past the end of the table, which wraps around.  What
    it returns is an entry of the table that is free for the prefix; on an
    instance without the attribute of the Tracked Set it raises
    [AttributeError]. *)
Theorem generate_available_random_string_pure
    (start_index : nat) (number_plate_prefix : string) (s : state) :
  snd (generate_available_random_string start_index number_plate_prefix s) = s ∧
  (existing_generated_plates (self s) = None →
   fst (generate_available_random_string start_index number_plate_prefix s) =
     Raise (no_attribute "existing_generated_plates")) ∧
  (∀ random_string,
     fst (generate_available_random_string start_index number_plate_prefix s) =
       Ok random_string →
     random_string ∈ all_possible_random_strings ∧
     ∃ plates, Spec.tracks (self s) plates ∧
               number_plate_prefix +:+ " " +:+ random_string ∉ plates).
Proof.
  destruct (existing_generated_plates (self s)) as [plates |] eqn:Hs.
  - destruct (generate_available_random_string_cases number_plate_prefix plates
                start_index s Hs) as [(c & Hrun & Hfirst & Hfree) | [Hrun Hall]];
      rewrite Hrun; cbn [fst snd]; split_and!; try done.
    intros c' [= <-]. split; [| by exists plates].
    destruct Hfirst as (k & _ & Hk & _). apply list_elem_of_lookup. eauto.
  - rewrite generate_available_random_string_no_attribute by done.
    cbn [fst snd]. split_and!; done.
Qed.

(** ** Across sessions *)

(** A plate minted by a generator that was constructed on a readable
    file is not the first field of any row of the file: what was stored
    is not issued again. *)
Theorem new_then_generate_numberplate
    (path : string) (w w' : OS.world) (wr : bool) (records : list (list string))
    (g : instance) (i : nat) (dvla_memory_tag date_created_str plate : string) :
  Spec.ends_in_csv path →
  OS.files w !! path = Some (OS.RegularFile true wr records) →
  new path w = (Ok g, w') →
  fst (generate_numberplate i dvla_memory_tag date_created_str (mk_state g w')) = Ok plate →
  ∀ row, row ∈ records → head row ≠ Some plate.
Proof.
  intros Hext%slice_csv_iff Hfile Hnew Hmint row Hrow Hhead.
  rewrite new_cases, bool_decide_eq_true_2, Hfile in Hnew by done.
  injection Hnew as Hg Hw.
  destruct (generate_numberplate_step i dvla_memory_tag date_created_str (mk_state g w')
              (list_to_set (collect_rows records [])))
    as [[e He] | (plate' & Hnew & Hok)].
  { by rewrite <- Hg. }
  { rewrite He in Hmint. discriminate. }
  rewrite Hok in Hmint. injection Hmint as ->. apply Hnew.
  apply elem_of_list_to_set, elem_of_collect_rows. eauto.
Qed.

(** The stored plate YR67 AAF and the first end-to-end test: the
    generator moves on to the next suffix. *)
Lemma new_then_generate_numberplate_witness :
  new "test.csv" (Fixtures.stored_world [["YR67 AAF"]]) =
    (Ok (mk_instance (Some "test.csv") (Some {[ "YR67 AAF" ]})),
     OS.print "successfully loaded 1 rows from 'test.csv'"
       (Fixtures.stored_world [["YR67 AAF"]])) ∧
  fst (generate_numberplate 5 "YR" "03/11/2017"
         (mk_state (mk_instance (Some "test.csv") (Some {[ "YR67 AAF" ]}))
            (OS.print "successfully loaded 1 rows from 'test.csv'"
               (Fixtures.stored_world [["YR67 AAF"]])))) = Ok "YR67 AAG" ∧
  head ["YR67 AAF"] ≠ Some "YR67 AAG".
Proof.
  split; [vm_compute; reflexivity |]. split; [vm_compute; reflexivity |].
  apply (new_then_generate_numberplate "test.csv" (Fixtures.stored_world [["YR67 AAF"]])
           (OS.print "successfully loaded 1 rows from 'test.csv'"
              (Fixtures.stored_world [["YR67 AAF"]]))
           true [["YR67 AAF"]]
           (mk_instance (Some "test.csv") (Some {[ "YR67 AAF" ]}))
           5 "YR" "03/11/2017" "YR67 AAG").
  - apply slice_csv_iff. vm_compute. reflexivity.
  - reflexivity.
  - vm_compute. reflexivity.
  - vm_compute. reflexivity.
  - set_solver.
Defined.

(** ** Room in the suffix table *)

(** A Tracked Set in which every suffix is taken for one prefix has at
    least as many plates as the table has entries. *)
Lemma all_taken_size (plates : gset string) (prefix : string) :
  (∀ c, c ∈ all_possible_random_strings → Spec.taken plates prefix c) →
  length all_possible_random_strings ≤ size plates.
Proof.
  intros Hall.
  set (l := (λ c, prefix +:+ " " +:+ c) <$> all_possible_random_strings).
  assert (NoDup l) as Hnodup.
  { apply NoDup_fmap_2; [| apply NoDup_all_possible_random_strings].
    intros c1 c2 H. by do 2 apply (inj (String.append _)) in H. }
  rewrite <- (length_fmap (λ c, prefix +:+ " " +:+ c)). fold l.
  rewrite <- (size_list_to_set (C := gset string) l Hnodup).
  apply subseteq_size. intros x (c & -> & Hc)%elem_of_list_to_set%list_elem_of_fmap.
  by apply Hall.
Qed.

(** With valid arguments, a generator that tracks fewer plates than the
    table has entries always mints: exhaustion cannot be raised before the
    Tracked Set holds 12167 plates. *)
Theorem generate_numberplate_succeeds
    (i : nat) (dvla_memory_tag date_created_str : string) (s : state)
    (date_created : Datetime.datetime) (plates : gset string) :
  Datetime.strptime date_created_str = Ok date_created →
  ¬ Spec.has_excluded_letter (Py.upper dvla_memory_tag) →
  Py.len (Py.upper dvla_memory_tag) = 2 →
  Spec.tracks (self s) plates →
  size plates < length all_possible_random_strings →
  length all_possible_random_strings = 12167 ∧
  ∃ plate,
    plate ∉ plates ∧
    generate_numberplate i dvla_memory_tag date_created_str s =
      (Ok plate,
       mk_state (mk_instance (save_file_path (self s)) (Some (plates ∪ {[plate]})))
         (world s)).
Proof.
  intros Hd Hx Hlen Hs Hsize. split; [apply all_possible_random_strings_length |].
  rewrite (generate_numberplate_valid i _ _ s date_created Hd Hx Hlen).
  destruct (generate_available_random_string_cases
              (Py.upper dvla_memory_tag +:+ generate_age_identifier date_created)
              plates i s Hs)
    as [(c & Hrun & Hfirst & Hfree) | [Hrun Hall]]; rewrite Hrun.
  - unfold Spec.tracks in Hs. rewrite Hs. eexists. split; [exact Hfree | done].
  - apply all_taken_size in Hall. lia.
Qed.

(** The generator of the first end-to-end test has room. *)
Lemma generate_numberplate_succeeds_witness :
  ∃ plate,
    generate_numberplate 5 "YR" "03/11/2017" (Fixtures.generator ∅) =
      (Ok plate, Fixtures.generator (∅ ∪ {[plate]})).
Proof.
  destruct (generate_numberplate_succeeds 5 "YR" "03/11/2017" (Fixtures.generator ∅)
              (Datetime.mk_datetime 2017 11 3) ∅) as (_ & plate & _ & Hcall).
  - vm_compute. reflexivity.
  - intros (c & Hc & Hin). vm_compute in Hin. set_solver.
  - reflexivity.
  - reflexivity.
  - rewrite size_empty. apply start_index_in_range, Nat.le_0_l.
  - exists plate. exact Hcall.
Defined.

(** ** The script *)





Section MainProperties.

Variable set_iter : gset string → list string.
Hypothesis set_iter_once : ∀ plates, set_iter plates ≡ₚ elements plates.
Variable start_index1 start_index2 start_index3 start_index4 : nat.


End MainProperties.


(** Run where [plates.csv] cannot be read, the script stops at its first
    mint with [AttributeError]: nothing is minted or saved, one line has
    been printed, and the file is as it was. *)
Theorem main_unreadable_file
    (set_iter : gset string → list string)
    (start_index1 start_index2 start_index3 start_index4 : nat)
    (w : OS.world) (wr : bool) (records : list (list string)) :
  OS.files w !! "plates.csv" = Some (OS.RegularFile false wr records) →
  main set_iter start_index1 start_index2 start_index3 start_index4 w =
    (Raise (no_attribute "existing_generated_plates"),
     OS.print "Failed to load existing generated plates due to {err}" w).
Proof.
  intros Hfile. unfold main.
  rewrite new_cases, bool_decide_eq_true_2, Hfile by (vm_compute; reflexivity).
  unfold bind at 1.
  rewrite (generate_numberplate_valid start_index1 "YP" "01/04/2010" _
             (Datetime.mk_datetime 2010 4 1)); [| vm_compute; reflexivity | | reflexivity].
  - by rewrite generate_available_random_string_no_attribute.
  - intros (ch & Hch & Hin). vm_compute in Hin. set_solver.
Qed.

(** The file [plates.csv] that cannot be read. *)
Lemma main_unreadable_file_witness :
  fst (main elements 0 0 0 0 Fixtures.unreadable_world) =
    Raise (Py.AttributeError
             "'UKNumberPlateGenerator' object has no attribute 'existing_generated_plates'") ∧
  OS.files (snd (main elements 0 0 0 0 Fixtures.unreadable_world)) =
    OS.files Fixtures.unreadable_world.
Proof.
  rewrite (main_unreadable_file elements 0 0 0 0 Fixtures.unreadable_world true
             [["YR67 AAF"]] eq_refl).
  split; reflexivity.
Defined.
